(** * Essay competition pipeline: classification, rubric scoring, ranking

    A shallow embedding of [context_Specific_Content_Classifier.py].

    Conventions of the embedding.
    - A Python [str] is a [text]: a list of characters, one per code point.
      The character type has the 256 code points of Latin-1; texts with
      wider code points are outside the model.  The character classes below
      ([is_space], [is_digit], [lower_char]) are the ones Python's [re] and
      [str] methods use on that range.
    - A Python [float] that the program computes is a quotient of two small
      integers or a one-decimal literal; it is modelled by the exact
      rational.  Division is correctly rounded and the thresholds the code
      compares with are integers, so every comparison has the same outcome.
    - Python's [int] has no bound on its values, and [int_of_digits] gives
      the value of a digit run of any length; the conversion [int(str)]
      itself raises [ValueError] on more than 4300 digits (the default of
      [sys.set_int_max_str_digits] in CPython 3.11 and later), which
      [python_int] models.
    - The inference service is external: a state [svc] and a transition
      [post] that answers one request.  Console output and the pacing
      [time.sleep] calls have no effect on any value and are left out. *)

From Stdlib Require Import List ZArith QArith Qround Ascii String Bool Lia.
From Stdlib Require Import Permutation Sorted DecimalString Lqa.
Import ListNotations.

Set Implicit Arguments.

Local Open Scope Z_scope.

(** ** Texts *)

Definition text := list ascii.

Definition T (s : string) : text := list_ascii_of_string s.

Definition code (c : ascii) : N := N_of_ascii c.

Definition in_range (lo hi : N) (c : ascii) : bool :=
  (N.leb lo (code c) && N.leb (code c) hi)%bool.

(** [str.isspace] and the class [\s] on code points below 256. *)
Definition is_space (c : ascii) : bool :=
  (in_range 9 13 c || in_range 28 32 c
   || N.eqb (code c) 133 || N.eqb (code c) 160)%bool.

(** The class [\d] on code points below 256. *)
Definition is_digit (c : ascii) : bool := in_range 48 57 c.

Arguments is_space : simpl never.
Arguments is_digit : simpl never.

(** [str.lower] on one code point below 256. *)
Definition lower_char (c : ascii) : ascii :=
  if (in_range 65 90 c
      || (in_range 192 222 c && negb (N.eqb (code c) 215)))%bool
  then ascii_of_N (code c + 32)
  else c.

Definition lower (s : text) : text := map lower_char s.

(** [str.upper] on ASCII letters; the program applies it to a captured
    group that consists of ASCII letters only. *)
Definition upper_char (c : ascii) : ascii :=
  if in_range 97 122 c then ascii_of_N (code c - 32) else c.

Definition upper (s : text) : text := map upper_char s.

Definition ascii_eqb (a b : ascii) : bool := N.eqb (code a) (code b).

Fixpoint text_eqb (a b : text) : bool :=
  match a, b with
  | [], [] => true
  | x :: a', y :: b' => (ascii_eqb x y && text_eqb a' b')%bool
  | _, _ => false
  end.

(** [s.startswith(p)] *)
Fixpoint startswith (p s : text) : bool :=
  match p, s with
  | [], _ => true
  | x :: p', y :: s' => (ascii_eqb x y && startswith p' s')%bool
  | _ :: _, [] => false
  end.

(** [needle in hay] *)
Fixpoint contains (needle hay : text) : bool :=
  (startswith needle hay
   || match hay with
      | [] => false
      | _ :: hay' => contains needle hay'
      end)%bool.

Fixpoint lstrip (s : text) : text :=
  match s with
  | c :: s' => if is_space c then lstrip s' else s
  | [] => []
  end.

Definition rstrip (s : text) : text := rev (lstrip (rev s)).

(** [s.strip()] *)
Definition strip (s : text) : text := rstrip (lstrip s).

Definition digit_value (c : ascii) : Z := Z.of_N (code c) - 48.

(** The value of a run of decimal digits. *)
Definition int_of_digits (ds : text) : Z :=
  fold_left (fun acc c => 10 * acc + digit_value c) ds 0.

(** [str(n)] for an integer. *)
Definition text_of_Z (n : Z) : text := T (NilZero.string_of_int (Z.to_int n)).

(** [f"{q:.1f}"] for a non-negative score.  The scores the program formats
    are multiples of one fifth, so no rounding tie arises. *)
Definition format_1f (q : Q) : text :=
  let tenths := Qfloor (q * 10 + (1 # 2))%Q in
  text_of_Z (tenths / 10) ++ T "." ++ text_of_Z (tenths mod 10).

(** ** Regular expressions of the program

    Every pattern of the program is a literal label matched without regard
    to case, a greedy [\s*], and a capture.  [re.search] tries the positions
    from left to right and returns the first match. *)

(** A literal matched under [re.IGNORECASE] at the head of the subject. *)
Fixpoint literal_ci (p s : text) : option text :=
  match p, s with
  | [], _ => Some s
  | x :: p', y :: s' =>
      if ascii_eqb (lower_char x) (lower_char y) then literal_ci p' s' else None
  | _ :: _, [] => None
  end.

Fixpoint take_digits (s : text) : text :=
  match s with
  | c :: s' => if is_digit c then c :: take_digits s' else []
  | [] => []
  end.

Section Search.
Variable A : Type.
Variable at_position : text -> option A.

(** [re.search]: the match at the leftmost position that has one. *)
Fixpoint re_search (s : text) : option A :=
  match at_position s with
  | Some r => Some r
  | None =>
      match s with
      | [] => None
      | _ :: s' => re_search s'
      end
  end.
End Search.

(** [label\s*(\d+)]: group 1.  No digit is a space, so giving back spaces
    never helps and the greedy run is the only one to try. *)
Definition rating_at (label : text) (s : text) : option text :=
  match literal_ci label s with
  | Some rest =>
      match take_digits (lstrip rest) with
      | [] => None
      | ds => Some ds
      end
  | None => None
  end.

(** [CLASSIFICATION:\s*(YES|NO)]: group 1. *)
Definition classification_at (s : text) : option text :=
  match literal_ci (T "CLASSIFICATION:") s with
  | Some rest =>
      let r := lstrip rest in
      match literal_ci (T "YES") r with
      | Some _ => Some (firstn 3 r)
      | None =>
          match literal_ci (T "NO") r with
          | Some _ => Some (firstn 2 r)
          | None => None
          end
      end
  | None => None
  end.

(** [SCORE:\s*([1-5](?:\.[0-9])?)]: group 1. *)
Definition score_at (s : text) : option text :=
  match literal_ci (T "SCORE:") s with
  | Some rest =>
      match lstrip rest with
      | d :: r =>
          if in_range 49 53 d then
            match r with
            | dot :: f :: _ =>
                if (ascii_eqb dot "."%char && is_digit f)%bool
                then Some [d; dot; f] else Some [d]
            | _ => Some [d]
            end
          else None
      | [] => None
      end
  | None => None
  end.

(** [float(g)] for a group matched by [[1-5](?:\.[0-9])?]. *)
Definition float_of_group (g : text) : Q :=
  match g with
  | [d] => inject_Z (digit_value d)
  | [d; _; f] => (inject_Z (digit_value d) + inject_Z (digit_value f) / 10)%Q
  | _ => 0%Q
  end.

(** The lookahead [$] without [re.MULTILINE]: at the end of the subject, or
    before a newline that ends it. *)
Definition at_dollar (s : text) : bool :=
  match s with
  | [] => true
  | [c] => N.eqb (code c) 10
  | _ => false
  end.

(** The rest of a lazy [.+?] under [re.DOTALL], after its first character:
    the shortest run after which [stop] holds. *)
Fixpoint lazy_until (stop : text -> bool) (s : text) : text :=
  if stop s then []
  else match s with
       | [] => []
       | c :: s' => c :: lazy_until stop s'
       end.

(** [label\s*(.+?)(?=stop)]: group 1.  The greedy [\s*] takes every space;
    when nothing is left for [.+?] it gives one space back, which [.+?]
    takes, and the subject ends there. *)
Definition section_at (label : text) (stop : text -> bool) (s : text)
  : option text :=
  match literal_ci label s with
  | Some rest =>
      match lstrip rest with
      | c :: r => Some (c :: lazy_until stop r)
      | [] =>
          match rev rest with
          | w :: _ => Some [w]
          | [] => None
          end
      end
  | None => None
  end.

Definition is_some (A : Type) (o : option A) : bool :=
  match o with Some _ => true | None => false end.

Definition strengths_stop (s : text) : bool :=
  (is_some (literal_ci (T "Topics:") s) || at_dollar s)%bool.


Definition nl : text := [ascii_of_N 10].

(** ** Replies of the inference service *)

(** What [response.json().get("response", "")] finds in the body of a
    reply.  [Unreadable] carries the message of the exception raised when
    the body is not JSON or not a JSON object.  [NotText] is a field that
    is present and is not a string (a JSON null, number, list or object);
    it carries the message of the [AttributeError] that [.strip()] raises
    on such a value. *)
Inductive body : Type :=
| Unreadable (err : text)
| NoField
| Field (v : text)
| NotText (err : text).

(** One [requests.post]: it raises (connection refused, timed out), or a
    reply arrives with a status code. *)
Inductive reply : Type :=
| PostRaised (err : text)
| Http (status : Z) (b : body).

(** The four prompt templates, each with the values its f-string embeds. *)
Inductive prompt : Type :=
| ClassifyPrompt (essay_head : text)
| AnalysisPrompt (filename essay_preview : text)
| RankingPrompt (count : nat) (essays_summary : text)
| GrandPrompt (combined_summary : text).

Record request : Type := {
  req_model : text;
  req_prompt : prompt;
  req_temperature : Q;
  req_top_p : option Q;
  req_timeout : Z
}.

(** An evaluation inside a [try] block: a value, or the message of the
    exception raised. *)
Inductive attempt (A : Type) : Type :=
| Raises (err : text)
| Returns (a : A).
Arguments Raises {A} err.
Arguments Returns {A} a.

(** [response.json().get("response", "")] in the three functions that go
    on with [.strip()]: the string to strip, or the exception raised on the
    way to it, by [.json()], by [.get] or, on a value that is not a string,
    by [.strip()] itself. *)
Definition response_field (b : body) : attempt text :=
  match b with
  | Unreadable err => Raises err
  | NoField => Returns []
  | Field v => Returns v
  | NotText err => Raises err
  end.

(** ** Classification: [ollama_classify_score] *)

Definition independence_keywords : list text :=
  map T ["independence day"; "august 15"; "15th august"; "freedom struggle";
         "british rule"; "gandhi"; "nehru"; "freedom fighter"; "patriotic";
         "tiranga"; "tricolor"; "national flag"; "red fort"; "partition"]%string.

Definition other_keywords : list text :=
  map T ["social media"; "facebook"; "instagram"; "environmental protection";
         "climate change"; "career goals"; "software engineer";
         "online education"; "covid-19"; "sports importance"; "basketball";
         "cricket"; "wings of fire"]%string.

(** [sum(1 for keyword in keywords if keyword in essay_lower)] *)
Definition keyword_score (keywords : list text) (essay_lower : text) : nat :=
  List.length (filter (fun keyword => contains keyword essay_lower) keywords).

(** The verdict parsed from the response, before the keyword fallback. *)
Definition parsed_classification (output : text) : text :=
  match re_search classification_at output with
  | Some g => if text_eqb (upper g) (T "YES") then T "Yes" else T "No"
  | None => T "No"
  end.

Definition fallback_classification (essay classification : text) : text :=
  if text_eqb classification (T "No") then
    let essay_lower := lower essay in
    let independence_score := keyword_score independence_keywords essay_lower in
    let other_score := keyword_score other_keywords essay_lower in
    if (Nat.ltb other_score independence_score
        && Nat.leb 2 independence_score)%bool
    then T "Yes" else classification
  else classification.

Definition parsed_score (output : text) : Q :=
  match re_search score_at output with
  | Some g => float_of_group g
  | None => 3
  end.

(** The body of the [try] block after the reply has arrived. *)
Definition classify_reply (essay : text) (r : reply)
  : text * option Q * text :=
  match r with
  | PostRaised err => (T "Error", None, err)
  | Http status b =>
      if negb (status =? 200) then
        (T "Error", None, T "HTTP " ++ text_of_Z status)
      else
        match response_field b with
        | Raises err => (T "Error", None, err)
        | Returns v =>
            let output := strip v in
            let classification :=
              fallback_classification essay (parsed_classification output) in
            (classification, Some (parsed_score output), output)
        end
  end.

(** ** Scoring: [quick_essay_analysis] *)

Module Analysis.
Record t : Type := {
  relevance : Z;
  content : Z;
  writing : Z;
  original : Z;
  impact : Z;
  overall_score : Q;
  strengths : text;
  topics : text;
  grade : text;
  raw_output : option text
}.
End Analysis.

Definition patterns : list (text * text) :=
  [(T "relevance", T "Relevance:");
   (T "content", T "Content:");
   (T "writing", T "Writing:");
   (T "original", T "Original:");
   (T "impact", T "Impact:")].

(** The limit of [int(str)] on the number of digits. *)
Definition int_max_str_digits : nat := 4300.

(** [int(match.group(1))] on a run of decimal digits: [ValueError] on a run
    longer than the limit. *)
Definition python_int (ds : text) : attempt Z :=
  if Nat.ltb int_max_str_digits (List.length ds)
  then Raises (T "Exceeds the limit (4300 digits) for integer string conversion")
  else Returns (int_of_digits ds).

(** One turn of the parsing loop, with the conversion that may raise. *)
Definition try_parse_rating (label output : text) : attempt Z :=
  match re_search (rating_at label) output with
  | Some ds =>
      match python_int ds with
      | Raises err => Raises err
      | Returns score => Returns (Z.min (Z.max score 1) 10)
      end
  | None => Returns 6
  end.

(** The loop over [patterns.items()]; the first conversion that raises
    ends it. *)
Fixpoint try_parse_ratings (ps : list (text * text)) (output : text)
  : attempt (list (text * Z)) :=
  match ps with
  | [] => Returns []
  | (key, label) :: rest =>
      match try_parse_rating label output with
      | Raises err => Raises err
      | Returns rating =>
          match try_parse_ratings rest output with
          | Raises err => Raises err
          | Returns ratings => Returns ((key, rating) :: ratings)
          end
      end
  end.

(** One turn of the parsing loop when the conversion returns: the rating
    stored under the key. *)
Definition parse_rating (label output : text) : Z :=
  match re_search (rating_at label) output with
  | Some ds => Z.min (Z.max (int_of_digits ds) 1) 10
  | None => 6
  end.

(** The loop over [patterns.items()] when every conversion returns: the
    entries of [analysis], in the order in which [scores] receives their
    values. *)
Definition parse_ratings (output : text) : list (text * Z) :=
  map (fun kp => (fst kp, parse_rating (snd kp) output)) patterns.

(** [analysis[key]] *)
Definition rating_of (key : text) (ratings : list (text * Z)) : Z :=
  match find (fun kv => text_eqb (fst kv) key) ratings with
  | Some kv => snd kv
  | None => 0
  end.

Definition sum_Z (l : list Z) : Z := fold_right Z.add 0 l.

(** [sum(scores) / len(scores)] *)
Definition mean (scores : list Z) : Q :=
  (inject_Z (sum_Z scores) / inject_Z (Z.of_nat (List.length scores)))%Q.

Definition grade_of (score : Q) : text :=
  if Qle_bool 9 score then T "A+"
  else if Qle_bool 8 score then T "A"
  else if Qle_bool 7 score then T "B+"
  else if Qle_bool 6 score then T "B"
  else if Qle_bool 5 score then T "C+"
  else T "C".

Definition parse_section (label : text) (stop : text -> bool)
    (fallback output : text) : text :=
  match re_search (section_at label stop) output with
  | Some g => strip g
  | None => fallback
  end.

(** The report built from the entries the loop has stored. *)
Definition build_analysis (ratings : list (text * Z)) (output : text)
  : Analysis.t :=
  let scores := map snd ratings in
  let overall := mean scores in
  {| Analysis.relevance := rating_of (T "relevance") ratings;
     Analysis.content := rating_of (T "content") ratings;
     Analysis.writing := rating_of (T "writing") ratings;
     Analysis.original := rating_of (T "original") ratings;
     Analysis.impact := rating_of (T "impact") ratings;
     Analysis.overall_score := overall;
     Analysis.strengths :=
       parse_section (T "Strengths:") strengths_stop
         (T "Good Independence Day essay") output;
     Analysis.topics :=
       parse_section (T "Topics:") at_dollar
         (T "Independence Day themes") output;
     Analysis.grade := grade_of overall;
     Analysis.raw_output := Some output |}.

(** The report when every conversion returns. *)
Definition parse_analysis (output : text) : Analysis.t :=
  build_analysis (parse_ratings output) output.

(** The statements of the [try] block from the parsing loop on. *)
Definition try_parse_analysis (output : text) : attempt Analysis.t :=
  match try_parse_ratings patterns output with
  | Raises err => Raises err
  | Returns ratings => Returns (build_analysis ratings output)
  end.

(** The body of the [try] block after the reply has arrived; [None] is the
    [None] the function returns, also from its [except] clause. *)
Definition analysis_of_reply (r : reply) : option Analysis.t :=
  match r with
  | PostRaised _ => None
  | Http status b =>
      if negb (status =? 200) then None
      else
        match response_field b with
        | Raises _ => None
        | Returns v =>
            match try_parse_analysis (strip v) with
            | Raises _ => None
            | Returns analysis => Some analysis
            end
        end
  end.

(** The analysis the caller substitutes when [quick_essay_analysis]
    returns [None]. *)
Definition default_analysis : Analysis.t :=
  {| Analysis.relevance := 6;
     Analysis.content := 6;
     Analysis.writing := 6;
     Analysis.original := 6;
     Analysis.impact := 6;
     Analysis.overall_score := 6;
     Analysis.strengths := T "Independence Day themed essay";
     Analysis.topics := T "Independence Day celebrations";
     Analysis.grade := T "B";
     Analysis.raw_output := None |}.

(** ** Ranking: [sorted(..., key=..., reverse=True)]

    Python's [sorted] is stable, and stays so with [reverse=True]: of two
    items with equal keys the one that comes first in the input comes
    first in the result.  Insertion from the right gives that order. *)
Section Sorted.
Variable A : Type.
Variable key : A -> Q.

Fixpoint insert_reverse (x : A) (l : list A) : list A :=
  match l with
  | [] => [x]
  | y :: l' =>
      if Qle_bool (key y) (key x) then x :: l
      else y :: insert_reverse x l'
  end.

Definition sorted_reverse (l : list A) : list A :=
  fold_right insert_reverse [] l.
End Sorted.

(** ** Data of the pipeline *)

(** An entry of [independence_day_essays] as phase 1 appends it. *)
Module Classified.
Record t : Type := {
  filename : text;
  filepath : text;
  content : text;
  basic_score : option Q
}.
End Classified.

(** The same entry once phase 2 has stored its ['analysis']. *)
Module Essay.
Record t : Type := {
  filename : text;
  filepath : text;
  content : text;
  basic_score : option Q;
  analysis : Analysis.t
}.
End Essay.

(** An entry of [top_3_data]. *)
Module Top.
Record t : Type := {
  filename : text;
  zone : text;
  content : text;
  overall_score : Q;
  grade : text;
  strengths : text;
  analysis : Analysis.t;
  zone_rank : nat
}.
End Top.

Definition with_analysis (e : Classified.t) (a : Analysis.t) : Essay.t :=
  {| Essay.filename := Classified.filename e;
     Essay.filepath := Classified.filepath e;
     Essay.content := Classified.content e;
     Essay.basic_score := Classified.basic_score e;
     Essay.analysis := a |}.

(** The key both rankings sort by: [x['analysis']['overall_score']]. *)
Definition score_key (x : Essay.t) : Q :=
  Analysis.overall_score (Essay.analysis x).

(** [enumerate(l, 1)] *)
Definition enumerate1 (A : Type) (l : list A) : list (nat * A) :=
  combine (seq 1 (List.length l)) l.

(** ** Files *)

Inductive read_outcome : Type :=
| ReadOk (content : text)
| ReadFailed (err : text).

Record file : Type := {
  file_name : text;
  file_str : text;
  file_read : read_outcome
}.

(** A folder as the run finds it: [None] when the path does not exist,
    else the files the three [glob] calls list, in that order. *)
Record folder : Type := {
  folder_path : text;
  folder_files : option (list file)
}.

Definition read_file_content (f : file) : text :=
  match file_read f with
  | ReadOk c => c
  | ReadFailed err => T "Error reading file: " ++ err
  end.

(** The reply to the probe [GET /api/tags]. *)
Inductive tags_reply : Type :=
| TagsRaised
| TagsHttp (status : Z) (listing_readable : bool).

(** What a run leaves behind. *)
Record zone_report : Type := {
  report_folder : text;
  total_submissions : nat;
  disqualified : nat;
  ranked : list Essay.t;
  judges_ranking : text
}.

Record grand_report : Type := {
  participating_zones : nat;
  total_essays : nat;
  grand_result : text
}.

(** What [compare_zones_top_essays] returns: a string, or the value of the
    field as it is when that value is not a string. *)
Inductive returned : Type :=
| Str (t : text)
| NotStr.

(** How [multi_zone_competition] ends: one of its three early returns, each
    after its message, the comparison with its report written, or the
    [TypeError] that [f.write(grand_result)] raises on a result that is not
    a string. *)
Inductive competition_end : Type :=
| InvalidNumber
| NeedTwoZones
| NeedTwoValidZones
| Compared (grand : text)
| ReportWriteRaised.

(** ** The pipeline over a service *)

Section Pipeline.
Variable svc : Type.
Variable post : svc -> request -> reply * svc.
Variable get_tags : svc -> tags_reply * svc.

Record world : Type := {
  service : svc;
  reports : list zone_report;
  championship : option grand_report
}.

Definition with_service (w : world) (s : svc) : world :=
  {| service := s; reports := reports w; championship := championship w |}.

Definition ollama_classify_score (essay model : text) (s : svc)
  : text * option Q * text * svc :=
  let (r, s') :=
    post s {| req_model := model;
              req_prompt := ClassifyPrompt (firstn 800 essay);
              req_temperature := 1 # 10;
              req_top_p := Some (9 # 10);
              req_timeout := 90 |} in
  (classify_reply essay r, s').

Definition quick_essay_analysis (essay filename model : text) (s : svc)
  : option Analysis.t * svc :=
  let essay_preview :=
    if Nat.ltb 1000 (List.length essay) then firstn 1000 essay else essay in
  let (r, s') :=
    post s {| req_model := model;
              req_prompt := AnalysisPrompt filename essay_preview;
              req_temperature := 1 # 10;
              req_top_p := None;
              req_timeout := 45 |} in
  (analysis_of_reply r, s').

Definition summary_line (entry : nat * Essay.t) : text :=
  let (i, data) := entry in
  let analysis := Essay.analysis data in
  text_of_Z (Z.of_nat i) ++ T ". " ++ Essay.filename data
  ++ T " - Score: " ++ format_1f (Analysis.overall_score analysis)
  ++ T "/10 - Strengths: " ++ firstn 50 (Analysis.strengths analysis)
  ++ T "...".

(** [sep.join(lines)] *)
Fixpoint join (sep : text) (lines : list text) : text :=
  match lines with
  | [] => []
  | [l] => l
  | l :: rest => l ++ sep ++ join sep rest
  end.

Definition simple_comparative_ranking (essays_data : list Essay.t)
    (model : text) (s : svc) : text * svc :=
  let essays_summary := join nl (map summary_line (enumerate1 essays_data)) in
  let (r, s') :=
    post s {| req_model := model;
              req_prompt :=
                RankingPrompt (List.length essays_data) essays_summary;
              req_temperature := 2 # 10;
              req_top_p := None;
              req_timeout := 60 |} in
  (match r with
   | PostRaised err => T "Ranking error: " ++ err
   | Http status b =>
       if negb (status =? 200)
       then T "Ranking analysis failed - timeout or error"
       else match response_field b with
            | Raises err => T "Ranking error: " ++ err
            | Returns v => strip v
            end
   end, s').

Definition test_ollama_connection (s : svc) : bool * svc :=
  let (r, s') := get_tags s in
  (match r with
   | TagsRaised => false
   | TagsHttp status listing_readable =>
       if status =? 200 then listing_readable else false
   end, s').

(** Phase 1, the loop over [essay_files]. *)
Fixpoint classify_files (essay_files : list file) (s : svc)
    (independence_day_essays : list Classified.t)
    (wrong_topic_essays : list text)
  : list Classified.t * list text * svc :=
  match essay_files with
  | [] => (independence_day_essays, wrong_topic_essays, s)
  | file_path :: rest =>
      let content := read_file_content file_path in
      if startswith (T "Error reading file") content then
        classify_files rest s independence_day_essays wrong_topic_essays
      else
        let '(classification, score, _, s') :=
          ollama_classify_score content (T "llama2") s in
        if text_eqb classification (T "Error") then
          classify_files rest s' independence_day_essays wrong_topic_essays
        else if text_eqb (lower classification) (T "yes") then
          classify_files rest s'
            (independence_day_essays ++
               [{| Classified.filename := file_name file_path;
                   Classified.filepath := file_str file_path;
                   Classified.content := content;
                   Classified.basic_score := score |}])
            wrong_topic_essays
        else if text_eqb (lower classification) (T "no") then
          classify_files rest s' independence_day_essays
            (wrong_topic_essays ++ [file_name file_path])
        else
          classify_files rest s' independence_day_essays wrong_topic_essays
  end.

(** Phase 2, the loop over [independence_day_essays]. *)
Fixpoint analyse_essays (independence_day_essays : list Classified.t)
    (s : svc) (successful_analyses : list Essay.t)
  : list Essay.t * svc :=
  match independence_day_essays with
  | [] => (successful_analyses, s)
  | essay_data :: rest =>
      let (analysis, s') :=
        quick_essay_analysis (Classified.content essay_data)
          (Classified.filename essay_data) (T "llama2") s in
      match analysis with
      | Some a =>
          analyse_essays rest s'
            (successful_analyses ++ [with_analysis essay_data a])
      | None =>
          analyse_essays rest s'
            (successful_analyses ++ [with_analysis essay_data default_analysis])
      end
  end.

Definition process_essay_folder_with_quick_analysis
    (input_folder : folder) (w : world) : list Essay.t * world :=
  match folder_files input_folder with
  | None => ([], w)
  | Some essay_files =>
      let (connected, s0) := test_ollama_connection (service w) in
      if negb connected then ([], with_service w s0)
      else
        match essay_files with
        | [] => ([], with_service w s0)
        | _ :: _ =>
            let '(independence_day_essays, wrong_topic_essays, s1) :=
              classify_files essay_files s0 [] [] in
            match independence_day_essays with
            | [] => ([], with_service w s1)
            | _ :: _ =>
                let (successful_analyses, s2) :=
                  analyse_essays independence_day_essays s1 [] in
                let (final_ranking, s3) :=
                  simple_comparative_ranking successful_analyses
                    (T "llama2") s2 in
                match successful_analyses with
                | [] => ([], with_service w s3)
                | _ :: _ =>
                    let sorted_essays :=
                      sorted_reverse score_key successful_analyses in
                    (successful_analyses,
                     {| service := s3;
                        reports :=
                          reports w ++
                            [{| report_folder := folder_path input_folder;
                                total_submissions := List.length essay_files;
                                disqualified := List.length wrong_topic_essays;
                                ranked := sorted_essays;
                                judges_ranking := final_ranking |}];
                        championship := championship w |})
                end
            end
        end
  end.

Definition top_entry (zone_name : text) (entry : nat * Essay.t) : Top.t :=
  let (rank, essay) := entry in
  {| Top.filename := Essay.filename essay;
     Top.zone := zone_name;
     Top.content := Essay.content essay;
     Top.overall_score := Analysis.overall_score (Essay.analysis essay);
     Top.grade := Analysis.grade (Essay.analysis essay);
     Top.strengths := Analysis.strengths (Essay.analysis essay);
     Top.analysis := Essay.analysis essay;
     Top.zone_rank := rank |}.

Definition process_single_zone_for_multi (zone_folder : folder)
    (zone_name : text) (w : world) : list Top.t * world :=
  let (successful_analyses, w') :=
    process_essay_folder_with_quick_analysis zone_folder w in
  match successful_analyses with
  | [] => ([], w')
  | _ :: _ =>
      let sorted_essays := sorted_reverse score_key successful_analyses in
      (map (top_entry zone_name) (enumerate1 (firstn 3 sorted_essays)), w')
  end.

(** The inner loop of [compare_zones_top_essays]: one entry per essay of
    the zone, numbered on from [essay_count]. *)
Definition essay_entry (zone_name : text) (essay_count : nat) (essay : Top.t)
  : text :=
  nl ++ T "Essay " ++ text_of_Z (Z.of_nat essay_count) ++ T ": "
     ++ Top.filename essay ++ T " (from " ++ zone_name ++ T ")" ++ nl
  ++ T "Zone Rank: #" ++ text_of_Z (Z.of_nat (Top.zone_rank essay))
     ++ T ", Zone Score: " ++ format_1f (Top.overall_score essay)
     ++ T "/10" ++ nl
  ++ T "Strengths: " ++ Top.strengths essay ++ nl
  ++ T "Content Preview: " ++ firstn 400 (Top.content essay) ++ T "..." ++ nl.

Fixpoint summarise_zone (zone_name : text) (zone_essays : list Top.t)
    (essay_count : nat) (combined_summary : text) : nat * text :=
  match zone_essays with
  | [] => (essay_count, combined_summary)
  | essay :: rest =>
      let essay_count' := S essay_count in
      summarise_zone zone_name rest essay_count'
        (combined_summary ++ essay_entry zone_name essay_count' essay)
  end.

(** [f"\n=== {zone_name} Top Essays ===\n"] *)
Definition zone_heading (zone_name : text) : text :=
  nl ++ T "=== " ++ zone_name ++ T " Top Essays ===" ++ nl.

(** The outer loop: a heading and the entries of every zone that has
    essays. *)
Fixpoint summarise_zones (all_zone_essays : list (list Top.t))
    (essay_count : nat) (combined_summary : text) : nat * text :=
  match all_zone_essays with
  | [] => (essay_count, combined_summary)
  | zone_essays :: rest =>
      match zone_essays with
      | [] => summarise_zones rest essay_count combined_summary
      | first :: _ =>
          let zone_name := Top.zone first in
          let (essay_count', combined_summary') :=
            summarise_zone zone_name zone_essays essay_count
              (combined_summary ++ zone_heading zone_name) in
          summarise_zones rest essay_count' combined_summary'
      end
  end.

Definition grand_request (all_zone_essays : list (list Top.t)) (model : text)
  : request :=
  {| req_model := model;
     req_prompt := GrandPrompt (snd (summarise_zones all_zone_essays 0 []));
     req_temperature := 3 # 10;
     req_top_p := None;
     req_timeout := 180 |}.

(** The [try] block of [compare_zones_top_essays] after the reply has
    arrived.  The field is returned as it is found, without [.strip()]: a
    value that is not a string raises nothing here. *)
Definition grand_answer (r : reply) : returned :=
  match r with
  | PostRaised err => Str (T "Error in grand comparison: " ++ err)
  | Http status b =>
      if status =? 200 then
        match b with
        | Unreadable err => Str (T "Error in grand comparison: " ++ err)
        | NoField => Str []
        | Field v => Str v
        | NotText _ => NotStr
        end
      else Str (T "Error: HTTP " ++ text_of_Z status)
  end.

Definition compare_zones_top_essays (all_zone_essays : list (list Top.t))
    (model : text) (s : svc) : returned * svc :=
  let (r, s') := post s (grand_request all_zone_essays model) in
  (grand_answer r, s').

(** The loop of [multi_zone_competition] over the zones the user names:
    a folder that does not exist is skipped, every other zone is
    processed and its top essays are kept, empty or not. *)
Fixpoint process_zones (zones : list (folder * text)) (w : world)
    (zone_names : list text) (all_zone_essays : list (list Top.t))
  : list text * list (list Top.t) * world :=
  match zones with
  | [] => (zone_names, all_zone_essays, w)
  | (zone_folder, zone_name) :: rest =>
      match folder_files zone_folder with
      | None => process_zones rest w zone_names all_zone_essays
      | Some _ =>
          let (top_essays, w') :=
            process_single_zone_for_multi zone_folder zone_name w in
          process_zones rest w' (zone_names ++ [zone_name])
            (all_zone_essays ++ [top_essays])
      end
  end.

Definition nonempty (A : Type) (l : list A) : bool :=
  match l with [] => false | _ :: _ => true end.

(** [[(name, essays) for name, essays in zip(...) if essays]] *)
Definition valid_zones_of (zone_names : list text)
    (all_zone_essays : list (list Top.t)) : list (text * list Top.t) :=
  filter (fun z => nonempty (snd z)) (combine zone_names all_zone_essays).

(** [num_zones] is what [int(input(...))] gives, [None] when it raises
    [ValueError]; [answers i] is the folder and the name the user enters
    for zone [i + 1].  The report file is opened and its heading lines are
    written before [f.write(grand_result)]: when that raises, the file
    holds the heading and no result. *)
Definition multi_zone_competition (num_zones : option Z)
    (answers : nat -> folder * text) (w : world) : competition_end * world :=
  match num_zones with
  | None => (InvalidNumber, w)
  | Some n =>
      if n <? 2 then (NeedTwoZones, w)
      else
        let '(zone_names, all_zone_essays, w1) :=
          process_zones (map answers (seq 0 (Z.to_nat n))) w [] [] in
        let valid_zones := valid_zones_of zone_names all_zone_essays in
        if Nat.ltb (List.length valid_zones) 2 then (NeedTwoValidZones, w1)
        else
          let total := list_sum (map (fun z => List.length (snd z)) valid_zones) in
          let (grand_result, s') :=
            compare_zones_top_essays (map snd valid_zones) (T "llama2")
              (service w1) in
          let report (written : text) :=
            {| service := s';
               reports := reports w1;
               championship :=
                 Some {| participating_zones := List.length valid_zones;
                         total_essays := total;
                         grand_result := written |} |} in
          match grand_result with
          | Str grand => (Compared grand, report grand)
          | NotStr => (ReportWriteRaised, report [])
          end
  end.
End Pipeline.

(** ** A scripted service

    A service that answers from a list, one reply per request, and
    answers [PostRaised] once the list is used up; its probe succeeds. *)
Definition scripted_post (s : list reply) (_ : request) : reply * list reply :=
  match s with
  | [] => (PostRaised (T "connection refused"), [])
  | r :: s' => (r, s')
  end.

Definition scripted_tags (s : list reply) : tags_reply * list reply :=
  (TagsHttp 200 true, s).

Definition ok (v : string) : reply := Http 200 (Field (T v)).

Definition text_file (name content : string) : file :=
  {| file_name := T name; file_str := T name; file_read := ReadOk (T content) |}.

(** ** Vocabulary of the statements *)

(** The five ratings of a report, in the order of [patterns]. *)
Definition dimensions (a : Analysis.t) : list Z :=
  [Analysis.relevance a; Analysis.content a; Analysis.writing a;
   Analysis.original a; Analysis.impact a].

(** The report an essay ends up with in phase 2. *)
Definition analysis_or_default (o : option Analysis.t) : Analysis.t :=
  match o with
  | Some a => a
  | None => default_analysis
  end.

(** A call of one of the three functions that strip the completion has
    failed when [requests.post] raised, when the status is not 200, or when
    the body could not be read up to the stripped string. *)
Definition call_failed (r : reply) : bool :=
  match r with
  | PostRaised _ => true
  | Http status (Unreadable _) => true
  | Http status (NotText _) => true
  | Http status _ => negb (status =? 200)
  end.

(** The message a failed call leaves: the exception's, or the status. *)
Definition failure_message (r : reply) : text :=
  match r with
  | PostRaised err => err
  | Http status b =>
      if negb (status =? 200) then T "HTTP " ++ text_of_Z status
      else match b with
           | Unreadable err => err
           | NotText err => err
           | _ => []
           end
  end.

(** [part] occurs in [whole]. *)
Definition infix (part whole : text) : Prop :=
  exists before after, whole = before ++ part ++ after.

(** The label occurs at the head of [s], in any case. *)
Definition label_here (label s : text) : Prop :=
  exists lab rest,
    s = lab ++ rest /\ map lower_char lab = map lower_char label.



Definition in_1_10 (d : Z) : Prop := 1 <= d <= 10.

(** The requests of the two per-item calls. *)
Definition classify_request (essay : text) : request :=
  {| req_model := T "llama2";
     req_prompt := ClassifyPrompt (firstn 800 essay);
     req_temperature := 1 # 10;
     req_top_p := Some (9 # 10);
     req_timeout := 90 |}.

Definition analysis_request (e : Classified.t) : request :=
  {| req_model := T "llama2";
     req_prompt :=
       AnalysisPrompt (Classified.filename e)
         (if Nat.ltb 1000 (List.length (Classified.content e))
          then firstn 1000 (Classified.content e)
          else Classified.content e);
     req_temperature := 1 # 10;
     req_top_p := None;
     req_timeout := 45 |}.

(** What the specification asks of a report: the overall score is the
    mean of the five ratings, and each rating is between 1 and 10. *)
Definition score_report_ok (a : Analysis.t) : Prop :=
  (Analysis.overall_score a == mean (dimensions a))%Q
  /\ List.length (dimensions a) = 5%nat
  /\ Forall in_1_10 (dimensions a).

(** At the head of [s] the label is followed, after optional spaces, by
    the word, in any case. *)
Definition word_follows (label word s : text) : Prop :=
  exists lab ws w rest,
    s = lab ++ ws ++ w ++ rest
    /\ map lower_char lab = map lower_char label
    /\ forallb is_space ws = true
    /\ map lower_char w = map lower_char word.

(** The verdict and the score of the classifier's result. *)
Definition verdict_of (res : text * option Q * text) : text := fst (fst res).
Definition score_of (res : text * option Q * text) : option Q := snd (fst res).

(** An essay whose only keywords come after its first 800 characters. *)
Definition late_keywords : text := repeat "x"%char 800 ++ T "gandhi met nehru".

(** The head of [s] is a character of the class [f]. *)
Definition head_is (f : ascii -> bool) (s : text) : bool :=
  match s with c :: _ => f c | [] => false end.


(** [a] may come before [b] in a ranking: its key is not smaller. *)
Definition before (A : Type) (key : A -> Q) (a b : A) : Prop :=
  (key b <= key a)%Q.

(** The entry phase 1 appends for a file classified Yes. *)
Definition classified_entry (f : file) (content : text) (score : option Q)
  : Classified.t :=
  {| Classified.filename := file_name f;
     Classified.filepath := file_str f;
     Classified.content := content;
     Classified.basic_score := score |}.

(** Two inputs of the examples: an essay classified Yes, and a folder of
    two files. *)
Definition sample_essay : Classified.t :=
  {| Classified.filename := T "a.txt";
     Classified.filepath := T "zone/a.txt";
     Classified.content := T "Gandhi and Nehru led the freedom struggle.";
     Classified.basic_score := Some 4%Q |}.

Definition sample_file : file := text_file "b.txt" "An essay on cricket.".

(** The top entries a zone report gives under a zone name. *)
Definition top_of_report (zone_name : text) (rep : zone_report) : list Top.t :=
  map (top_entry zone_name) (enumerate1 (firstn 3 (ranked rep))).

(** All entries of a zone carry one zone name. *)
Definition uniform_zone (zone_essays : list Top.t) : Prop :=
  forall e1 e2, In e1 zone_essays -> In e2 zone_essays ->
                Top.zone e1 = Top.zone e2.

(** The zones a user names in the example: one folder with one essay, and
    a path that does not exist. *)
Definition sample_answers (i : nat) : folder * text :=
  match i with
  | O => ({| folder_path := T "north";
             folder_files := Some [text_file "a.txt" "Gandhi and Nehru."] |},
          T "North")
  | _ => ({| folder_path := T "nowhere"; folder_files := None |}, T "South")
  end.

Definition sample_world : world (list reply) :=
  {| service := [ok "CLASSIFICATION: YES"; ok "Relevance: 8"; ok "1st: a.txt"];
     reports := [];
     championship := None |}.

(** An entry with its ['basic_score'] taken away, before and after
    phase 2. *)
Definition without_score (e : Classified.t) : Classified.t :=
  {| Classified.filename := Classified.filename e;
     Classified.filepath := Classified.filepath e;
     Classified.content := Classified.content e;
     Classified.basic_score := None |}.

Definition erase_score (e : Essay.t) : Essay.t :=
  {| Essay.filename := Essay.filename e;
     Essay.filepath := Essay.filepath e;
     Essay.content := Essay.content e;
     Essay.basic_score := None;
     Essay.analysis := Essay.analysis e |}.

(** The folder of the scenario: five files, three of them on the topic. *)
Definition scenario_folder : folder :=
  {| folder_path := T "zone";
     folder_files :=
       Some [text_file "one.txt" "The tricolor at the Red Fort.";
             text_file "two.txt" "My career goals.";
             text_file "three.txt" "Gandhi and the freedom struggle.";
             text_file "four.txt" "Cricket and basketball.";
             text_file "five.txt" "Nehru on August 15."] |}.

Definition scenario_world : world (list reply) :=
  {| service :=
       [ok "CLASSIFICATION: YES"; ok "CLASSIFICATION: NO";
        ok "CLASSIFICATION: YES"; ok "CLASSIFICATION: NO";
        ok "CLASSIFICATION: YES";
        ok "Relevance: 9 Content: 8 Writing: 8 Original: 8 Impact: 9";
        PostRaised (T "timed out");
        ok "Relevance: 8 Content: 7 Writing: 7 Original: 7 Impact: 7";
        ok "1st: one.txt"];
     reports := [];
     championship := None |}.

(** ** Vocabulary of the further properties *)

(** A service that also keeps the list of the requests it has received. *)
Definition recording_post (svc : Type)
    (post : svc -> request -> reply * svc)
    (s : svc * list request) (req : request)
  : reply * (svc * list request) :=
  let (r, s') := post (fst s) req in
  (r, (s', snd s ++ [req])).

Definition recording_tags (svc : Type) (get_tags : svc -> tags_reply * svc)
    (s : svc * list request) : tags_reply * (svc * list request) :=
  let (r, s') := get_tags (fst s) in
  (r, (s', snd s)).

(** The contents phase 1 sends to the classifier: those of the files it
    does not skip. *)
Definition sent_contents (files : list file) : list text :=
  filter (fun c => negb (startswith (T "Error reading file") c))
    (map read_file_content files).

(** The request and the result of [simple_comparative_ranking]. *)
Definition ranking_request (essays_data : list Essay.t) (model : text)
  : request :=
  {| req_model := model;
     req_prompt :=
       RankingPrompt (List.length essays_data)
         (join nl (map summary_line (enumerate1 essays_data)));
     req_temperature := 2 # 10;
     req_top_p := None;
     req_timeout := 60 |}.

Definition ranking_text (r : reply) : text :=
  match r with
  | PostRaised err => T "Ranking error: " ++ err
  | Http status b =>
      if negb (status =? 200)
      then T "Ranking analysis failed - timeout or error"
      else match response_field b with
           | Raises err => T "Ranking error: " ++ err
           | Returns v => strip v
           end
  end.

(** The name is the zone of every essay of the list. *)
Definition tagged (z : text * list Top.t) : Prop :=
  Forall (fun e => Top.zone e = fst z) (snd z).

(** The folder of a zone exists. *)
Definition folder_exists (z : folder * text) : bool :=
  is_some (folder_files (fst z)).

(** [s.strip(chars)] for the characters of the class [p]. *)
Fixpoint lstrip_by (p : ascii -> bool) (s : text) : text :=
  match s with
  | c :: s' => if p c then lstrip_by p s' else s
  | [] => []
  end.

Definition strip_by (p : ascii -> bool) (s : text) : text :=
  rev (lstrip_by p (rev (lstrip_by p s))).

Definition double_quote : ascii := ascii_of_N 34.
Definition single_quote : ascii := ascii_of_N 39.

(** The path as [multi_zone_competition] and [main] read it: the input
    with [strip()] applied, then [strip] of the double quote, then [strip]
    of the single quote. *)
Definition entered_path (raw : text) : text :=
  strip_by (ascii_eqb single_quote)
    (strip_by (ascii_eqb double_quote) (strip raw)).

(** A character that no step of [entered_path] removes. *)
Definition path_edge (c : ascii) : bool :=
  negb (is_space c || ascii_eqb double_quote c || ascii_eqb single_quote c).

(** A file whose text begins like the message of a failed read. *)
Definition misleading_file : file :=
  text_file "notes.txt" "Error reading file formats is the topic of this essay.".

(** A response with a section of strengths and a section of topics. *)
Definition sections_reply : text :=
  T "Strengths: bold" ++ nl ++ T "Topics: flags and freedom".

(** ** Vocabulary of the conversion limit and the comparison *)





(** The overall score is the sum of the five ratings divided by five, and
    each rating is between 1 and 10. *)
Definition mean_of_five_ratings (a : Analysis.t) : Prop :=
  (Analysis.overall_score a
   == (Analysis.relevance a + Analysis.content a + Analysis.writing a
       + Analysis.original a + Analysis.impact a) # 5)%Q
  /\ 1 <= Analysis.relevance a <= 10
  /\ 1 <= Analysis.content a <= 10
  /\ 1 <= Analysis.writing a <= 10
  /\ 1 <= Analysis.original a <= 10
  /\ 1 <= Analysis.impact a <= 10.

(** A failed call in the words of the specification: the request raised,
    the status is not 200, or the response is missing the completion
    field. *)
Definition failed_in_specification (r : reply) : bool :=
  match r with
  | PostRaised _ => true
  | Http status b =>
      (negb (status =? 200)
       || match b with Field _ => false | _ => true end)%bool
  end.

(** The service of a folder run whose classification reply has no
    completion field. *)
Definition missing_field_world : world (list reply) :=
  {| service := [Http 200 NoField; ok "Relevance: 8"; ok "1st: a.txt"];
     reports := [];
     championship := None |}.



(** Two zones of three essays each, with the replies of their runs and
    of the grand comparison. *)
Definition zone_script : list reply :=
  [ok "CLASSIFICATION: YES"; ok "CLASSIFICATION: YES"; ok "CLASSIFICATION: YES";
   ok "Relevance: 9 Content: 9 Writing: 9 Original: 9 Impact: 9";
   ok "Relevance: 8 Content: 8 Writing: 8 Original: 8 Impact: 8";
   ok "Relevance: 7 Content: 7 Writing: 7 Original: 7 Impact: 7";
   ok "1st"].

Definition two_zone_answers (i : nat) : folder * text :=
  match i with
  | O => ({| folder_path := T "north";
             folder_files :=
               Some [text_file "n1.txt" "Gandhi and Nehru.";
                     text_file "n2.txt" "The tricolor at the Red Fort.";
                     text_file "n3.txt" "Freedom struggle and partition."] |},
          T "North")
  | _ => ({| folder_path := T "south";
             folder_files :=
               Some [text_file "s1.txt" "August 15 and the national flag.";
                     text_file "s2.txt" "A patriotic freedom fighter.";
                     text_file "s3.txt" "British rule and the tiranga."] |},
          T "South")
  end.

Definition two_zone_world : world (list reply) :=
  {| service :=
       zone_script ++ zone_script ++ [ok " 1st Place: n1.txt from North "];
     reports := [];
     championship := None |}.

(** The same run when the field of the last reply is a JSON null. *)
Definition null_grand_world : world (list reply) :=
  {| service :=
       zone_script ++ zone_script
       ++ [Http 200 (NotText (T "'NoneType' object has no attribute 'strip'"))];
     reports := [];
     championship := None |}.

(** * Properties *)

Unset Implicit Arguments.

(** ** Characters and texts *)

Lemma ascii_eqb_eq (a b : ascii) : ascii_eqb a b = true <-> a = b.
Proof.
  unfold ascii_eqb, code. rewrite N.eqb_eq. split.
  - intro H. rewrite <- (ascii_N_embedding a), <- (ascii_N_embedding b).
    now rewrite H.
  - now intros ->.
Qed.

Lemma ascii_eqb_refl (a : ascii) : ascii_eqb a a = true.
Proof. now apply ascii_eqb_eq. Qed.

Lemma text_eqb_eq (a b : text) : text_eqb a b = true <-> a = b.
Proof.
  revert b. induction a as [|x a IH]; intros [|y b]; simpl;
    try (split; [discriminate | discriminate]); try tauto.
  rewrite andb_true_iff, ascii_eqb_eq, IH. split.
  - now intros [-> ->].
  - intros H. now inversion H.
Qed.

Lemma text_eqb_refl (a : text) : text_eqb a a = true.
Proof. now apply text_eqb_eq. Qed.


(** ** Grades *)

Lemma Qle_bool_false (x y : Q) : Qle_bool x y = false <-> (y < x)%Q.
Proof.
  split.
  - intro H. apply Qnot_le_lt. intro L. apply Qle_bool_iff in L. congruence.
  - intro H. destruct (Qle_bool x y) eqn:E; [|reflexivity].
    apply Qle_bool_iff in E. lra.
Qed.

(** C5.  The grade is a step function of the score: each score falls in
    exactly one of the six bands 9 and above, 8 to 9, 7 to 8, 6 to 7, 5 to 6
    and below 5, which give A+, A, B+, B, C+ and C; the boundary scores get
    the grades the specification lists, and the grade of every parsed
    report is this function of its overall score. *)
Theorem grade_is_step_function (score : Q) :
  (grade_of score = T "A+" <-> (9 <= score)%Q)
  /\ (grade_of score = T "A" <-> (8 <= score < 9)%Q)
  /\ (grade_of score = T "B+" <-> (7 <= score < 8)%Q)
  /\ (grade_of score = T "B" <-> (6 <= score < 7)%Q)
  /\ (grade_of score = T "C+" <-> (5 <= score < 6)%Q)
  /\ (grade_of score = T "C" <-> (score < 5)%Q)
  /\ (grade_of 9 = T "A+" /\ grade_of 8 = T "A" /\ grade_of 7 = T "B+"
      /\ grade_of 6 = T "B" /\ grade_of 5 = T "C+"
      /\ grade_of (499 # 100) = T "C")
  /\ (forall output,
        Analysis.grade (parse_analysis output)
        = grade_of (Analysis.overall_score (parse_analysis output)))
  /\ Analysis.grade default_analysis
     = grade_of (Analysis.overall_score default_analysis).
Proof.
  unfold grade_of.
  destruct (Qle_bool 9 score) eqn:E9;
    [| destruct (Qle_bool 8 score) eqn:E8;
       [| destruct (Qle_bool 7 score) eqn:E7;
          [| destruct (Qle_bool 6 score) eqn:E6;
             [| destruct (Qle_bool 5 score) eqn:E5]]]];
    repeat match goal with
      | H : Qle_bool _ _ = true |- _ => apply Qle_bool_iff in H
      | H : Qle_bool _ _ = false |- _ => apply Qle_bool_false in H
      end;
    repeat split; intros; try discriminate; try reflexivity; try lra.
Qed.

(** ** Reports *)

Lemma parse_rating_range (label output : text) :
  in_1_10 (parse_rating label output).
Proof.
  unfold in_1_10, parse_rating.
  destruct (re_search (rating_at label) output); lia.
Qed.

(** A turn of the loop gives the rating of [parse_rating], or its
    conversion raises: the digit run found is longer than the limit. *)
Lemma try_parse_rating_cases (label output : text) :
  try_parse_rating label output = Returns (parse_rating label output)
  \/ exists err ds,
       try_parse_rating label output = Raises err
       /\ re_search (rating_at label) output = Some ds
       /\ (int_max_str_digits < List.length ds)%nat.
Proof.
  unfold try_parse_rating, parse_rating, python_int.
  destruct (re_search (rating_at label) output) as [ds|]; [| now left].
  destruct (Nat.ltb_spec int_max_str_digits (List.length ds)) as [H | H];
    [right | now left].
  eexists. exists ds. now repeat split.
Qed.

Lemma try_parse_ratings_returns (ps : list (text * text)) (output : text)
    (ratings : list (text * Z)) :
  try_parse_ratings ps output = Returns ratings ->
  ratings = map (fun kp => (fst kp, parse_rating (snd kp) output)) ps.
Proof.
  revert ratings. induction ps as [|[key label] ps IH]; intros ratings; simpl.
  - now intros [= <-].
  - destruct (try_parse_rating_cases label output) as [-> | (err & ds & -> & _)];
      [| discriminate].
    destruct (try_parse_ratings ps output) as [err | l]; [discriminate |].
    intros [= <-]. now rewrite (IH l eq_refl).
Qed.

Lemma try_parse_analysis_returns (output : text) (a : Analysis.t) :
  try_parse_analysis output = Returns a -> a = parse_analysis output.
Proof.
  unfold try_parse_analysis, parse_analysis, parse_ratings.
  destruct (try_parse_ratings patterns output) as [err | ratings] eqn:E;
    [discriminate |].
  intros [= <-]. now rewrite (try_parse_ratings_returns _ _ _ E).
Qed.

(** What the caller stores after a reply with status 200 and a string to
    strip: the parsed report, or the default one. *)
Lemma analysis_or_default_cases (output : text) :
  analysis_or_default
    match try_parse_analysis output with
    | Raises _ => None
    | Returns analysis => Some analysis
    end = parse_analysis output
  \/ analysis_or_default
       match try_parse_analysis output with
       | Raises _ => None
       | Returns analysis => Some analysis
       end = default_analysis.
Proof.
  destruct (try_parse_analysis output) as [err | a] eqn:E; [now right | left].
  simpl. now apply try_parse_analysis_returns.
Qed.

Lemma dimensions_parse_analysis (output : text) :
  dimensions (parse_analysis output) = map snd (parse_ratings output).
Proof. reflexivity. Qed.

Lemma parse_analysis_ok (output : text) : score_report_ok (parse_analysis output).
Proof.
  unfold score_report_ok. rewrite dimensions_parse_analysis.
  split; [reflexivity | split; [reflexivity |]].
  unfold parse_ratings, patterns; simpl.
  repeat (apply Forall_cons; [apply parse_rating_range |]). apply Forall_nil.
Qed.

Lemma default_analysis_ok : score_report_ok default_analysis.
Proof.
  unfold score_report_ok, in_1_10, dimensions; simpl.
  split; [reflexivity | split; [reflexivity |]].
  repeat (apply Forall_cons; [lia |]). apply Forall_nil.
Qed.

Lemma analysis_or_default_ok (r : reply) :
  score_report_ok (analysis_or_default (analysis_of_reply r)).
Proof.
  destruct r as [err | status b]; simpl; [apply default_analysis_ok |].
  destruct (negb (status =? 200)); [apply default_analysis_ok |].
  destruct (response_field b) as [err | v]; [apply default_analysis_ok |].
  destruct (analysis_or_default_cases (strip v)) as [-> | ->];
    [apply parse_analysis_ok | apply default_analysis_ok].
Qed.

Section PipelineFacts.
Variable svc : Type.
Variable post : svc -> request -> reply * svc.
Variable get_tags : svc -> tags_reply * svc.

Lemma quick_essay_analysis_eq (e : Classified.t) (s : svc) :
  quick_essay_analysis post (Classified.content e) (Classified.filename e)
    (T "llama2") s
  = (analysis_of_reply (fst (post s (analysis_request e))),
     snd (post s (analysis_request e))).
Proof.
  unfold quick_essay_analysis, analysis_request.
  now destruct (post s _).
Qed.

(** Phase 2 appends one entry per essay: the parsed report, or the default
    one. *)
Lemma analyse_essays_step (e : Classified.t) (rest : list Classified.t)
    (s : svc) (acc : list Essay.t) :
  analyse_essays post (e :: rest) s acc
  = analyse_essays post rest (snd (post s (analysis_request e)))
      (acc ++ [with_analysis e
                 (analysis_or_default
                    (analysis_of_reply (fst (post s (analysis_request e)))))]).
Proof.
  simpl. rewrite quick_essay_analysis_eq.
  now destruct (analysis_of_reply _).
Qed.

Lemma analyse_essays_acc (l : list Classified.t) (s : svc) (acc : list Essay.t) :
  analyse_essays post l s acc
  = (acc ++ fst (analyse_essays post l s []), snd (analyse_essays post l s [])).
Proof.
  revert s acc. induction l as [|e l IH]; intros s acc.
  - simpl. now rewrite app_nil_r.
  - rewrite !analyse_essays_step. rewrite IH.
    rewrite (IH _ ([] ++ _)). simpl. now rewrite <- app_assoc.
Qed.

Lemma analyse_essays_Forall (P : Essay.t -> Prop) :
  (forall e r, P (with_analysis e (analysis_or_default (analysis_of_reply r)))) ->
  forall l s acc, Forall P acc -> Forall P (fst (analyse_essays post l s acc)).
Proof.
  intros HP l. induction l as [|e l IH]; intros s acc Hacc; [exact Hacc |].
  rewrite analyse_essays_step. apply IH.
  apply Forall_app. split; [exact Hacc |]. constructor; [apply HP | constructor].
Qed.

(** The essays a folder run returns are the ones phase 2 produced. *)
Lemma process_folder_result (input_folder : folder) (w : world svc) :
  fst (process_essay_folder_with_quick_analysis post get_tags input_folder w) = []
  \/ exists l s,
      fst (process_essay_folder_with_quick_analysis post get_tags input_folder w)
      = fst (analyse_essays post l s []).
Proof.
  unfold process_essay_folder_with_quick_analysis.
  destruct (folder_files input_folder) as [files|]; [| now left].
  destruct (test_ollama_connection get_tags (service w)) as [c s0].
  destruct (negb c); [now left |].
  destruct files as [|f files]; [now left |].
  destruct (classify_files post (f :: files) s0 [] []) as [[yes no] s1].
  destruct yes as [|y yes]; [now left |].
  destruct (analyse_essays post (y :: yes) s1 []) as [ok s2] eqn:E.
  destruct (simple_comparative_ranking post ok (T "llama2") s2) as [fr s3].
  destruct ok as [|o ok]; [now left |].
  right. exists (y :: yes), s1. now rewrite E.
Qed.

End PipelineFacts.

(** ** The patterns, declaratively *)

Lemma literal_ci_Some (p s rest : text) :
  literal_ci p s = Some rest ->
  exists lab, s = lab ++ rest /\ map lower_char lab = map lower_char p.
Proof.
  revert s. induction p as [|x p IH]; intros s; simpl.
  - intros [= <-]. now exists [].
  - destruct s as [|y s]; [discriminate |].
    destruct (ascii_eqb (lower_char x) (lower_char y)) eqn:E; [| discriminate].
    intros H. apply IH in H as (lab & -> & Hl). apply ascii_eqb_eq in E.
    exists (y :: lab). simpl. now rewrite Hl, E.
Qed.

Lemma literal_ci_app (p lab rest : text) :
  map lower_char lab = map lower_char p ->
  literal_ci p (lab ++ rest) = Some rest.
Proof.
  revert lab. induction p as [|x p IH]; intros [|y lab]; simpl;
    try discriminate; [reflexivity |].
  intros [= Hy Hl]. rewrite <- Hy, ascii_eqb_refl. now apply IH.
Qed.

Lemma literal_ci_iff (p s rest : text) :
  literal_ci p s = Some rest
  <-> exists lab, s = lab ++ rest /\ map lower_char lab = map lower_char p.
Proof.
  split; [apply literal_ci_Some |].
  intros (lab & -> & Hl). now apply literal_ci_app.
Qed.

Lemma literal_ci_None (p s : text) :
  literal_ci p s = None <-> ~ label_here p s.
Proof.
  split.
  - intros H (lab & rest & -> & Hl). now rewrite literal_ci_app in H.
  - intros H. destruct (literal_ci p s) as [rest|] eqn:E; [| reflexivity].
    exfalso. apply H. apply literal_ci_Some in E as (lab & -> & Hl).
    now exists lab, rest.
Qed.

Lemma lstrip_split (s : text) :
  exists ws, s = ws ++ lstrip s /\ forallb is_space ws = true
             /\ head_is is_space (lstrip s) = false.
Proof.
  induction s as [|c s (ws & Hs & Hws & Hh)]; [now exists [] |].
  simpl. destruct (is_space c) eqn:E.
  - exists (c :: ws). split; [simpl; now rewrite <- Hs |].
    split; [| exact Hh]. simpl. now rewrite E.
  - exists []. repeat split. simpl. exact E.
Qed.

Lemma lstrip_app (ws r : text) :
  forallb is_space ws = true -> head_is is_space r = false ->
  lstrip (ws ++ r) = r.
Proof.
  intros Hws Hr. induction ws as [|c ws IH]; simpl in *.
  - destruct r as [|c r]; [reflexivity |]. simpl in *. now rewrite Hr.
  - apply andb_true_iff in Hws as [Hc Hws]. rewrite Hc. now apply IH.
Qed.





Section SearchFacts.
Variable A : Type.
Variable at_position : text -> option A.

Lemma re_search_None (s : text) :
  re_search at_position s = None
  <-> forall pre post, s = pre ++ post -> at_position post = None.
Proof.
  induction s as [|c s IH]; simpl.
  - destruct (at_position []) eqn:E; split; try discriminate; try reflexivity.
    + intros H. rewrite <- E. now apply (H [] []).
    + intros _ pre post H. symmetry in H. apply app_eq_nil in H as [_ ->].
      exact E.
  - destruct (at_position (c :: s)) eqn:E; split; try discriminate.
    + intros H. rewrite <- E. now apply (H [] (c :: s)).
    + intros H [|x pre] post Hs; simpl in Hs.
      * now rewrite <- Hs.
      * injection Hs as _ Hs. now apply (proj1 IH H pre).
    + intros H. apply IH. intros pre post ->. now apply (H (c :: pre) post).
Qed.

Lemma re_search_first (pre post : text) (r : A) :
  at_position post = Some r ->
  (forall pre1 pre2, pre = pre1 ++ pre2 -> pre2 <> [] ->
                     at_position (pre2 ++ post) = None) ->
  re_search at_position (pre ++ post) = Some r.
Proof.
  intros Hr. induction pre as [|c pre IH]; intros Hnone.
  - simpl. destruct post; simpl; now rewrite Hr.
  - assert (at_position ((c :: pre) ++ post) = None) as H0
      by (apply (Hnone [] (c :: pre) eq_refl); discriminate).
    simpl in *. rewrite H0.
    apply IH. intros pre1 pre2 -> Hne. now apply (Hnone (c :: pre1) pre2).
Qed.

Lemma re_search_Some (s : text) (r : A) :
  re_search at_position s = Some r ->
  exists pre post, s = pre ++ post /\ at_position post = Some r.
Proof.
  induction s as [|c s IH]; simpl.
  - destruct (at_position []) eqn:E; [| discriminate].
    intros [= <-]. now exists [], [].
  - destruct (at_position (c :: s)) eqn:E.
    + intros [= <-]. now exists [], (c :: s).
    + intros H. apply IH in H as (pre & post & -> & H).
      now exists (c :: pre), post.
Qed.

(** The match found is at the leftmost position that has one. *)
Lemma re_search_leftmost (s : text) (r : A) :
  re_search at_position s = Some r ->
  exists pre post,
    s = pre ++ post /\ at_position post = Some r
    /\ forall pre1 pre2, pre = pre1 ++ pre2 -> pre2 <> [] ->
                         at_position (pre2 ++ post) = None.
Proof.
  induction s as [|c s IH]; simpl.
  - destruct (at_position []) eqn:E; [| discriminate].
    intros [= <-]. exists [], []. repeat split; [exact E |].
    intros pre1 pre2 H Hne. symmetry in H. apply app_eq_nil in H as [_ ->].
    now destruct Hne.
  - destruct (at_position (c :: s)) eqn:E.
    + intros [= <-]. exists [], (c :: s). repeat split; [exact E |].
      intros pre1 pre2 H Hne. symmetry in H. apply app_eq_nil in H as [_ ->].
      now destruct Hne.
    + intros H. apply IH in H as (pre & post & -> & H & Hnone).
      exists (c :: pre), post. repeat split; [exact H |].
      intros [|x pre1] pre2 Hp Hne; simpl in Hp.
      * now rewrite <- Hp.
      * injection Hp as _ Hp. now apply (Hnone pre1 pre2).
Qed.
End SearchFacts.














(** ** The classifier *)

Lemma startswith_iff (p s : text) :
  startswith p s = true <-> exists rest, s = p ++ rest.
Proof.
  revert s. induction p as [|x p IH]; intros s; simpl.
  - split; [now exists s | reflexivity].
  - destruct s as [|y s].
    + split; [discriminate | now intros (rest & H)].
    + rewrite andb_true_iff, ascii_eqb_eq, IH. split.
      * intros [-> (rest & ->)]. now exists rest.
      * intros (rest & H). injection H as -> ->. split; [reflexivity |].
        now exists rest.
Qed.

(** [needle in hay] holds exactly when the needle occurs in the text. *)
Lemma contains_iff (needle hay : text) :
  contains needle hay = true <-> infix needle hay.
Proof.
  unfold infix. induction hay as [|c hay IH].
  - simpl. rewrite orb_false_r, startswith_iff. split.
    + intros (rest & H). now exists [], rest.
    + intros (before & after & H). symmetry in H.
      apply app_eq_nil in H as [_ H]. apply app_eq_nil in H as [-> ->].
      now exists [].
  - simpl. rewrite orb_true_iff, startswith_iff, IH. split.
    + intros [(rest & H) | (before & after & H)].
      * now exists [], rest.
      * exists (c :: before), after. simpl. now rewrite H.
    + intros ([|b before] & after & H); simpl in H.
      * left. now exists after.
      * right. injection H as _ H. now exists before, after.
Qed.

Lemma letter_any_case (c l : ascii) :
  In l [ "y"; "e"; "s"; "n"; "o" ]%char -> lower_char c = l ->
  upper_char c = upper_char l /\ is_space c = false.
Proof.
  intros Hl Hc. simpl in Hl.
  destruct Hl as [<- | [<- | [<- | [<- | [<- | []]]]]];
    destruct c as [[] [] [] [] [] [] [] []];
    vm_compute in Hc; try discriminate Hc; split; reflexivity.
Qed.

Lemma yes_any_case (w : text) :
  map lower_char w = map lower_char (T "YES") ->
  upper w = T "YES" /\ head_is is_space w = false /\ List.length w = 3%nat.
Proof.
  destruct w as [|a [|b [|c [|d w]]]]; try discriminate.
  intros [= Ha Hb Hc].
  destruct (letter_any_case a "y") as [Ua Sa]; [simpl; tauto | exact Ha |].
  destruct (letter_any_case b "e") as [Ub _]; [simpl; tauto | exact Hb |].
  destruct (letter_any_case c "s") as [Uc _]; [simpl; tauto | exact Hc |].
  unfold upper. simpl. rewrite Ua, Ub, Uc. repeat split. exact Sa.
Qed.

Lemma no_any_case (w : text) :
  map lower_char w = map lower_char (T "NO") ->
  upper w = T "NO" /\ head_is is_space w = false /\ List.length w = 2%nat
  /\ forall rest, literal_ci (T "YES") (w ++ rest) = None.
Proof.
  destruct w as [|a [|b [|c w]]]; try discriminate.
  intros [= Ha Hb].
  destruct (letter_any_case a "n") as [Ua Sa]; [simpl; tauto | exact Ha |].
  destruct (letter_any_case b "o") as [Ub _]; [simpl; tauto | exact Hb |].
  unfold upper. simpl. rewrite Ua, Ub. repeat split; [exact Sa |].
  intros rest. rewrite Ha. reflexivity.
Qed.

Lemma firstn_length_app (w rest : text) :
  firstn (List.length w) (w ++ rest) = w.
Proof. induction w; simpl; [now destruct rest | now f_equal]. Qed.

Lemma classification_at_yes (s : text) :
  word_follows (T "CLASSIFICATION:") (T "YES") s ->
  exists g, classification_at s = Some g /\ upper g = T "YES".
Proof.
  intros (lab & ws & w & rest & -> & Hl & Hws & Hw).
  destruct (yes_any_case w Hw) as (Hu & Hs & Hn).
  exists w. split; [| exact Hu]. unfold classification_at.
  rewrite (literal_ci_app _ _ _ Hl). cbv zeta.
  rewrite lstrip_app; [| exact Hws | destruct w; [discriminate | exact Hs]].
  rewrite (literal_ci_app _ _ _ Hw), <- Hn.
  now rewrite firstn_length_app.
Qed.

Lemma classification_at_no (s : text) :
  word_follows (T "CLASSIFICATION:") (T "NO") s ->
  exists g, classification_at s = Some g /\ upper g = T "NO".
Proof.
  intros (lab & ws & w & rest & -> & Hl & Hws & Hw).
  destruct (no_any_case w Hw) as (Hu & Hs & Hn & Hy).
  exists w. split; [| exact Hu]. unfold classification_at.
  rewrite (literal_ci_app _ _ _ Hl). cbv zeta.
  rewrite lstrip_app; [| exact Hws | destruct w; [discriminate | exact Hs]].
  rewrite Hy, (literal_ci_app _ _ _ Hw), <- Hn.
  now rewrite firstn_length_app.
Qed.

Lemma classification_at_Some (s g : text) :
  classification_at s = Some g ->
  word_follows (T "CLASSIFICATION:") (T "YES") s
  \/ word_follows (T "CLASSIFICATION:") (T "NO") s.
Proof.
  unfold classification_at.
  destruct (literal_ci (T "CLASSIFICATION:") s) as [rest|] eqn:E;
    [| discriminate].
  apply literal_ci_Some in E as (lab & -> & Hl).
  destruct (lstrip_split rest) as (ws & Hr & Hws & _). cbv zeta.
  destruct (literal_ci (T "YES") (lstrip rest)) as [r1|] eqn:E1.
  - intros _. left. apply literal_ci_Some in E1 as (w & Hw & Hc).
    exists lab, ws, w, r1. rewrite <- Hw, <- Hr. now repeat split.
  - destruct (literal_ci (T "NO") (lstrip rest)) as [r2|] eqn:E2;
      [| discriminate].
    intros _. right. apply literal_ci_Some in E2 as (w & Hw & Hc).
    exists lab, ws, w, r2. rewrite <- Hw, <- Hr. now repeat split.
Qed.

Lemma parsed_classification_cases (output : text) :
  parsed_classification output = T "Yes" \/ parsed_classification output = T "No".
Proof.
  unfold parsed_classification.
  destruct (re_search classification_at output) as [g|]; [| now right].
  destruct (text_eqb (upper g) (T "YES")); [now left | now right].
Qed.

Lemma fallback_on_no (essay : text) :
  fallback_classification essay (T "No")
  = if (Nat.ltb (keyword_score other_keywords (lower essay))
          (keyword_score independence_keywords (lower essay))
        && Nat.leb 2 (keyword_score independence_keywords (lower essay)))%bool
    then T "Yes" else T "No".
Proof. reflexivity. Qed.

Lemma fallback_on_yes (essay : text) :
  fallback_classification essay (T "Yes") = T "Yes".
Proof. reflexivity. Qed.

Lemma provisional_first_match (word pre s : text) :
  word = T "YES" \/ word = T "NO" ->
  word_follows (T "CLASSIFICATION:") word s ->
  (forall pre1 pre2, pre = pre1 ++ pre2 -> pre2 <> [] ->
     ~ word_follows (T "CLASSIFICATION:") (T "YES") (pre2 ++ s)
     /\ ~ word_follows (T "CLASSIFICATION:") (T "NO") (pre2 ++ s)) ->
  parsed_classification (pre ++ s)
  = if text_eqb word (T "YES") then T "Yes" else T "No".
Proof.
  intros Hword Hs Hfirst.
  assert (exists g, classification_at s = Some g /\ upper g = word)
    as (g & Hg & Hu).
  { destruct Hword as [-> | ->];
      [now apply classification_at_yes | now apply classification_at_no]. }
  unfold parsed_classification.
  rewrite (re_search_first _ classification_at pre s g Hg).
  - now rewrite Hu.
  - intros pre1 pre2 E Hne.
    destruct (classification_at (pre2 ++ s)) as [g'|] eqn:E'; [| reflexivity].
    apply classification_at_Some in E'.
    destruct (Hfirst pre1 pre2 E Hne) as [H1 H2]. tauto.
Qed.

(** The lowered text holds a keyword exactly where the text holds it in
    some mix of cases. *)
Lemma infix_lower (keyword essay : text) :
  infix keyword (lower essay)
  <-> exists pre mid post,
        essay = pre ++ mid ++ post /\ map lower_char mid = keyword.
Proof.
  unfold infix, lower. split.
  - intros (b & a & H).
    apply map_eq_app in H as (pre & rest & -> & <- & H).
    apply map_eq_app in H as (mid & post & -> & <- & <-).
    now exists pre, mid, post.
  - intros (pre & mid & post & -> & <-).
    exists (map lower_char pre), (map lower_char post).
    now rewrite !map_app.
Qed.

Lemma lower_char_letter (c : ascii) :
  in_range 65 90 c = true -> code (lower_char c) = (code c + 32)%N.
Proof.
  intros H. unfold lower_char. rewrite H. cbn [orb].
  unfold code. rewrite N_ascii_embedding; [reflexivity |].
  unfold in_range, code in H. apply andb_true_iff in H as [_ H].
  apply N.leb_le in H. lia.
Qed.

Lemma lower_char_other (c : ascii) :
  (code c < 128)%N -> in_range 65 90 c = false -> lower_char c = c.
Proof.
  intros Hc H. unfold lower_char. rewrite H. cbn [orb].
  assert (in_range 192 222 c = false) as ->; [| reflexivity].
  unfold in_range. apply andb_false_iff. left. apply N.leb_gt. lia.
Qed.

(** The provisional verdict is Yes exactly when the first place where the
    label is followed by YES or NO has YES. *)
Lemma provisional_yes_iff (output : text) :
  parsed_classification output = T "Yes"
  <-> exists pre s,
        output = pre ++ s
        /\ word_follows (T "CLASSIFICATION:") (T "YES") s
        /\ forall pre1 pre2, pre = pre1 ++ pre2 -> pre2 <> [] ->
             ~ word_follows (T "CLASSIFICATION:") (T "YES") (pre2 ++ s)
             /\ ~ word_follows (T "CLASSIFICATION:") (T "NO") (pre2 ++ s).
Proof.
  split.
  - unfold parsed_classification.
    destruct (re_search classification_at output) as [g|] eqn:E;
      [| discriminate].
    destruct (text_eqb (upper g) (T "YES")) eqn:Eg; [| discriminate].
    intros _. apply text_eqb_eq in Eg.
    apply re_search_leftmost in E as (pre & s & -> & Hs & Hnone).
    exists pre, s. split; [reflexivity |]. split.
    + destruct (classification_at_Some s g Hs) as [H | H]; [exact H |].
      apply classification_at_no in H as (g' & Hg' & Hu).
      rewrite Hs in Hg'. injection Hg' as <-. rewrite Eg in Hu. discriminate.
    + intros pre1 pre2 Hp Hne. specialize (Hnone pre1 pre2 Hp Hne).
      split; intros H;
        [apply classification_at_yes in H | apply classification_at_no in H];
        destruct H as (g' & Hg' & _); congruence.
  - intros (pre & s & -> & Hs & Hfirst).
    now rewrite (provisional_first_match (T "YES") pre s (or_introl eq_refl)
                   Hs Hfirst).
Qed.

(** C2.  The provisional verdict is Yes or No.  It is Yes exactly when the
    first place where [CLASSIFICATION:] is followed by YES or NO, in any
    case, has YES; so it is No when the label does not occur and when no
    place has the label followed by YES.  On a provisional No the final
    verdict is Yes exactly when the inclusion keywords found outnumber the
    exclusion keywords found and are at least two; a provisional Yes is
    never changed.  Two or more inclusion keywords and no exclusion keyword
    give Yes, one inclusion keyword and no exclusion keyword leave No.  A
    count is the number of keywords of its list that occur in the essay;
    a keyword occurs when some stretch of the full text, also after the
    first 800 characters, is the keyword once its capital letters are
    lowered.  The two lists have 14 and 13 keywords, none twice, all in
    lower case. *)
Theorem fallback_overrides_excluded_only (essay output : text) :
  let provisional := parsed_classification output in
  let final := fallback_classification essay provisional in
  let inclusion := keyword_score independence_keywords (lower essay) in
  let exclusion := keyword_score other_keywords (lower essay) in
  let occurs keyword :=
    exists pre mid post,
      essay = pre ++ mid ++ post /\ map lower_char mid = keyword in
  (provisional = T "Yes" \/ provisional = T "No")
  /\ ((forall pre s, output = pre ++ s ->
                     ~ label_here (T "CLASSIFICATION:") s) ->
      provisional = T "No")
  /\ (forall word pre s,
        word = T "YES" \/ word = T "NO" ->
        output = pre ++ s ->
        word_follows (T "CLASSIFICATION:") word s ->
        (forall pre1 pre2, pre = pre1 ++ pre2 -> pre2 <> [] ->
           ~ word_follows (T "CLASSIFICATION:") (T "YES") (pre2 ++ s)
           /\ ~ word_follows (T "CLASSIFICATION:") (T "NO") (pre2 ++ s)) ->
        provisional = if text_eqb word (T "YES") then T "Yes" else T "No")
  /\ (provisional = T "No" ->
      (final = T "Yes" <-> (exclusion < inclusion /\ 2 <= inclusion)%nat)
      /\ (final = T "Yes" \/ final = T "No"))
  /\ (provisional = T "Yes" -> final = T "Yes")
  /\ (provisional = T "No" -> (2 <= inclusion)%nat -> exclusion = 0%nat ->
      final = T "Yes")
  /\ (provisional = T "No" -> inclusion = 1%nat -> exclusion = 0%nat ->
      final = T "No")
  /\ (forall keywords keyword,
        In keyword (filter (fun k => contains k (lower essay)) keywords)
        <-> In keyword keywords /\ infix keyword (lower essay))
  /\ verdict_of (classify_reply essay (Http 200 (Field output)))
     = fallback_classification essay (parsed_classification (strip output))
  /\ (keyword_score independence_keywords (lower (firstn 800 late_keywords))
      = 0%nat
      /\ fallback_classification late_keywords (T "No") = T "Yes")
  /\ (provisional = T "Yes" <->
      exists pre s,
        output = pre ++ s
        /\ word_follows (T "CLASSIFICATION:") (T "YES") s
        /\ forall pre1 pre2, pre = pre1 ++ pre2 -> pre2 <> [] ->
             ~ word_follows (T "CLASSIFICATION:") (T "YES") (pre2 ++ s)
             /\ ~ word_follows (T "CLASSIFICATION:") (T "NO") (pre2 ++ s))
  /\ ((forall pre s, output = pre ++ s ->
                     ~ word_follows (T "CLASSIFICATION:") (T "YES") s) ->
      provisional = T "No")
  /\ (forall keywords,
        keyword_score [] (lower essay) = 0%nat
        /\ (forall keyword,
              occurs keyword ->
              keyword_score (keyword :: keywords) (lower essay)
              = S (keyword_score keywords (lower essay)))
        /\ (forall keyword,
              ~ occurs keyword ->
              keyword_score (keyword :: keywords) (lower essay)
              = keyword_score keywords (lower essay)))
  /\ (forall c,
        (in_range 65 90 c = true -> code (lower_char c) = (code c + 32)%N)
        /\ ((code c < 128)%N -> in_range 65 90 c = false -> lower_char c = c))
  /\ (List.length independence_keywords = 14%nat
      /\ List.length other_keywords = 13%nat
      /\ NoDup (independence_keywords ++ other_keywords)
      /\ Forall (fun keyword => lower keyword = keyword)
           (independence_keywords ++ other_keywords)
      /\ hd [] independence_keywords = T "independence day"
      /\ last independence_keywords [] = T "partition"
      /\ hd [] other_keywords = T "social media"
      /\ last other_keywords [] = T "wings of fire")
  /\ (parsed_classification (T "CLASSIFICATION: MAYBE") = T "No"
      /\ parsed_classification (T "Classification:yes") = T "Yes"
      /\ parsed_classification (T "classification: No. CLASSIFICATION: YES")
         = T "No"
      /\ parsed_classification (T "The essay is on topic: YES") = T "No"
      /\ fallback_classification (T "GANDHI met Nehru") (T "No") = T "Yes"
      /\ fallback_classification (T "Independence Day, on August 15") (T "No")
         = T "Yes"
      /\ fallback_classification (T "Red Fort and Partition") (T "No")
         = T "Yes"
      /\ fallback_classification (T "Gandhi alone") (T "No") = T "No"
      /\ fallback_classification
           (T "Gandhi and Nehru on Social Media and FACEBOOK") (T "No")
         = T "No"
      /\ fallback_classification
           (T "Gandhi, Nehru; cricket and Wings of Fire") (T "No")
         = T "No"
      /\ verdict_of
           (classify_reply (T "GANDHI met Nehru")
              (Http 200 (Field (T "CLASSIFICATION: MAYBE"))))
         = T "Yes").
Proof.
  intros provisional final inclusion exclusion occurs.
  assert (provisional = T "No" ->
          final = if (Nat.ltb exclusion inclusion && Nat.leb 2 inclusion)%bool
                  then T "Yes" else T "No") as Hno.
  { intros H. unfold final. rewrite H. apply fallback_on_no. }
  split; [apply parsed_classification_cases |].
  split.
  { intros Habsent. unfold provisional, parsed_classification.
    assert (re_search classification_at output = None) as ->; [| reflexivity].
    apply re_search_None. intros pre post E. unfold classification_at.
    now rewrite (proj2 (literal_ci_None _ post) (Habsent pre post E)). }
  split.
  { intros word pre s Hword -> Hs Hfirst.
    now apply provisional_first_match. }
  split.
  { intros H. rewrite (Hno H).
    assert (T "No" <> T "Yes") as Hd by discriminate.
    destruct (Nat.ltb_spec exclusion inclusion) as [E1 | E1];
      destruct (Nat.leb_spec 2 inclusion) as [E2 | E2]; simpl;
      (split; [split; [intros Hf; try (now destruct (Hd Hf)); split; assumption
                      | intros [Hf1 Hf2]; try reflexivity; exfalso; lia]
              | tauto]). }
  split.
  { intros H. unfold final. rewrite H. apply fallback_on_yes. }
  split.
  { intros H H2 H0. rewrite (Hno H), H0.
    destruct inclusion as [|[|n]]; [lia | lia | reflexivity]. }
  split.
  { intros H H1 H0. rewrite (Hno H), H1, H0. reflexivity. }
  split.
  { intros keywords keyword. rewrite filter_In, contains_iff. tauto. }
  split; [reflexivity |].
  split; [split; vm_compute; reflexivity |].
  split; [apply provisional_yes_iff |].
  split.
  { intros Hnone.
    destruct (parsed_classification_cases output) as [H | H]; [| exact H].
    apply provisional_yes_iff in H as (pre & s & E & Hs & _).
    now destruct (Hnone pre s E). }
  split.
  { intros keywords. split; [reflexivity |].
    split; intros keyword Hk; unfold keyword_score; cbn [filter].
    - assert (contains keyword (lower essay) = true) as ->; [| reflexivity].
      apply contains_iff, infix_lower. exact Hk.
    - destruct (contains keyword (lower essay)) eqn:E; [| reflexivity].
      exfalso. apply Hk. now apply infix_lower, contains_iff. }
  split.
  { intros c. split; [apply lower_char_letter | apply lower_char_other]. }
  split.
  { split; [reflexivity |]. split; [reflexivity |].
    split.
    - apply (NoDup_map_inv string_of_list_ascii). vm_compute.
      repeat (constructor; [cbn [In]; intuition discriminate |]).
      constructor.
    - split.
      + apply Forall_forall. intros k Hk. vm_compute in Hk.
        repeat (destruct Hk as [<- | Hk]; [vm_compute; reflexivity |]).
        destruct Hk.
      + repeat split; reflexivity. }
  repeat split; vm_compute; reflexivity.
Qed.

(** ** The model score *)

Lemma digit_value_range (lo hi : N) (c : ascii) :
  in_range lo hi c = true ->
  Z.of_N lo - 48 <= digit_value c <= Z.of_N hi - 48.
Proof.
  unfold in_range, digit_value. rewrite andb_true_iff, !N.leb_le. lia.
Qed.

Lemma score_group_range (s g : text) :
  score_at s = Some g -> (1 <= float_of_group g <= 59 # 10)%Q.
Proof.
  unfold score_at.
  destruct (literal_ci (T "SCORE:") s) as [rest|]; [| discriminate].
  destruct (lstrip rest) as [|d r]; [discriminate |].
  destruct (in_range 49 53 d) eqn:Ed; [| discriminate].
  apply digit_value_range in Ed. simpl in Ed.
  assert (1 <= inject_Z (digit_value d) <= 59 # 10)%Q as H1.
  { unfold Qle, inject_Z; simpl. lia. }
  assert (forall f, is_digit f = true ->
            (1 <= inject_Z (digit_value d) + inject_Z (digit_value f) / 10
             <= 59 # 10)%Q) as H2.
  { intros f Hf. apply digit_value_range in Hf. simpl in Hf.
    unfold Qle, Qplus, Qdiv, Qmult, Qinv, inject_Z; simpl. lia. }
  destruct r as [|dot [|f r]]; try (intros [= <-]; exact H1).
  destruct (ascii_eqb dot "." && is_digit f)%bool eqn:E;
    intros [= <-]; [| exact H1].
  apply andb_true_iff in E as [_ Hf]. now apply H2.
Qed.

(** The score parsed from a response lies between 1.0 and 5.9. *)
Lemma parsed_score_range (output : text) :
  (1 <= parsed_score output <= 59 # 10)%Q.
Proof.
  unfold parsed_score.
  destruct (re_search score_at output) as [g|] eqn:E.
  - apply re_search_Some in E as (pre & post & _ & E).
    now apply (score_group_range post).
  - unfold Qle; simpl; lia.
Qed.

(** C7.  The response [SCORE: 5.9] has status 200 and parses to the score
    5.9, which is above 5.0: the pattern admits any decimal digit after a
    leading 5. *)
Theorem score_five_point_nine_accepted (essay : text) :
  score_of (classify_reply essay (Http 200 (Field (T "SCORE: 5.9"))))
  = Some (59 # 10)
  /\ ~ (59 # 10 <= 5)%Q
  /\ (parsed_score (T "SCORE: 5.9") == 59 # 10)%Q.
Proof.
  split; [reflexivity |]. split; [| reflexivity].
  unfold Qle; simpl; lia.
Qed.

Lemma fallback_cases (essay classification : text) :
  classification = T "Yes" \/ classification = T "No" ->
  fallback_classification essay classification = T "Yes"
  \/ fallback_classification essay classification = T "No".
Proof.
  intros [-> | ->]; [left; apply fallback_on_yes |].
  rewrite fallback_on_no. destruct (_ && _)%bool; [now left | now right].
Qed.

(** The three shapes of a classifier result. *)
Lemma classify_reply_shape (essay : text) (r : reply) :
  (call_failed r = true
   /\ classify_reply essay r = (T "Error", None, failure_message r))
  \/ (call_failed r = false
      /\ exists q raw,
          (classify_reply essay r = (T "Yes", Some q, raw)
           \/ classify_reply essay r = (T "No", Some q, raw))).
Proof.
  destruct r as [err | status b]; [now left |].
  unfold classify_reply, call_failed, failure_message.
  destruct (status =? 200); simpl.
  - destruct b as [err | | v | err]; [now left | right | right | now left];
      simpl; (split; [reflexivity |]); eexists; eexists;
      match goal with
      | |- context [fallback_classification ?e (parsed_classification ?o)] =>
          destruct (fallback_cases e (parsed_classification o)
                      (parsed_classification_cases o)) as [-> | ->]
      end; [left | right | left | right]; reflexivity.
  - left. now destruct b.
Qed.

Section ClassifierFacts.
Variable svc : Type.
Variable post : svc -> request -> reply * svc.

Lemma ollama_classify_score_eq (essay : text) (s : svc) :
  ollama_classify_score post essay (T "llama2") s
  = (classify_reply essay (fst (post s (classify_request essay))),
     snd (post s (classify_request essay))).
Proof.
  unfold ollama_classify_score, classify_request. now destruct (post s _).
Qed.

(** C10.  The classifier's verdict is one of the three distinct texts Yes,
    No and Error; the score is absent exactly when the verdict is Error; a
    call that raised, or came back with a status other than 200 or with an
    unreadable body, gives Error without a score, and every other call
    gives Yes or No with a score. *)
Theorem verdict_is_one_of_three_and_score_iff_not_error
    (essay : text) (s : svc) :
  let r := fst (post s (classify_request essay)) in
  let res := fst (ollama_classify_score post essay (T "llama2") s) in
  res = classify_reply essay r
  /\ (T "Yes" <> T "No" /\ T "Yes" <> T "Error" /\ T "No" <> T "Error")
  /\ (verdict_of res = T "Yes" \/ verdict_of res = T "No"
      \/ verdict_of res = T "Error")
  /\ (score_of res = None <-> verdict_of res = T "Error")
  /\ (call_failed r = false ->
      (verdict_of res = T "Yes" \/ verdict_of res = T "No")
      /\ exists q, score_of res = Some q)
  /\ (call_failed r = true ->
      verdict_of res = T "Error" /\ score_of res = None).
Proof.
  intros r res.
  assert (res = classify_reply essay r) as Hres.
  { unfold res. now rewrite ollama_classify_score_eq. }
  split; [exact Hres |]. rewrite Hres.
  split; [repeat split; discriminate |].
  destruct (classify_reply_shape essay r)
    as [[Hf ->] | [Hf (q & raw & [-> | ->])]];
    unfold verdict_of, score_of; simpl; rewrite Hf;
    repeat split; intros; try discriminate; try tauto; eauto.
Qed.
End ClassifierFacts.

(** ** Ranking *)

Section SortedFacts.
Variable A : Type.
Variable key : A -> Q.

Lemma insert_reverse_perm (x : A) (l : list A) :
  Permutation (x :: l) (insert_reverse key x l).
Proof.
  induction l as [|y l IH]; simpl; [reflexivity |].
  destruct (Qle_bool (key y) (key x)); [reflexivity |].
  rewrite perm_swap. now apply perm_skip.
Qed.

Lemma sorted_reverse_perm (l : list A) :
  Permutation l (sorted_reverse key l).
Proof.
  induction l as [|x l IH]; simpl; [reflexivity |].
  rewrite <- insert_reverse_perm. now apply perm_skip.
Qed.

Lemma insert_reverse_sorted (x : A) (l : list A) :
  StronglySorted (before key) l -> StronglySorted (before key) (insert_reverse key x l).
Proof.
  induction l as [|y l IH]; intros Hs; simpl.
  - constructor; constructor.
  - destruct (Qle_bool (key y) (key x)) eqn:E.
    + apply Qle_bool_iff in E. constructor; [exact Hs |].
      constructor; [exact E |].
      apply StronglySorted_inv in Hs as [_ Hy].
      eapply Forall_impl; [| exact Hy]. unfold before. intros z Hz.
      now apply Qle_trans with (key y).
    + apply Qle_bool_false in E.
      pose proof (StronglySorted_inv Hs) as [Hl Hy].
      constructor; [now apply IH |].
      apply (Permutation_Forall (insert_reverse_perm x l)).
      constructor; [| exact Hy]. unfold before. now apply Qlt_le_weak.
Qed.

Lemma sorted_reverse_sorted (l : list A) :
  StronglySorted (before key) (sorted_reverse key l).
Proof.
  induction l as [|x l IH]; simpl; [constructor |].
  now apply insert_reverse_sorted.
Qed.


End SortedFacts.


(** ** Failures of single calls *)

Lemma analysis_of_reply_failed (r : reply) :
  call_failed r = true -> analysis_of_reply r = None.
Proof.
  destruct r as [err | status b]; [reflexivity |]. simpl.
  destruct (status =? 200); simpl; [| reflexivity].
  destruct b; [reflexivity | discriminate | discriminate | reflexivity].
Qed.

Section BatchFacts.
Variable svc : Type.
Variable post : svc -> request -> reply * svc.

Lemma analyse_essays_names (l : list Classified.t) (s : svc) :
  map Essay.filename (fst (analyse_essays post l s []))
  = map Classified.filename l.
Proof.
  revert s. induction l as [|e l IH]; intros s; [reflexivity |].
  rewrite analyse_essays_step, analyse_essays_acc. simpl.
  now rewrite IH.
Qed.

Lemma classify_files_step (f : file) (rest : list file) (s : svc)
    (yes : list Classified.t) (no : list text) :
  classify_files post (f :: rest) s yes no
  = let content := read_file_content f in
    if startswith (T "Error reading file") content
    then classify_files post rest s yes no
    else
      let res := classify_reply content (fst (post s (classify_request content))) in
      let s' := snd (post s (classify_request content)) in
      if text_eqb (verdict_of res) (T "Error")
      then classify_files post rest s' yes no
      else if text_eqb (lower (verdict_of res)) (T "yes")
      then classify_files post rest s'
             (yes ++ [classified_entry f content (score_of res)]) no
      else if text_eqb (lower (verdict_of res)) (T "no")
      then classify_files post rest s' yes (no ++ [file_name f])
      else classify_files post rest s' yes no.
Proof.
  cbv zeta. cbn [classify_files].
  destruct (startswith _ (read_file_content f)); [reflexivity |].
  rewrite ollama_classify_score_eq.
  now destruct (classify_reply _ _) as [[c sc] raw].
Qed.

(** Every entry phase 1 returns was there before or stems from one of the
    files of the loop. *)
Lemma classify_files_origin (files : list file) (s : svc)
    (yes : list Classified.t) (no : list text) (e : Classified.t) :
  In e (fst (fst (classify_files post files s yes no))) ->
  In e yes
  \/ exists g, In g files /\ Classified.filename e = file_name g
               /\ Classified.content e = read_file_content g.
Proof.
  revert s yes no. induction files as [|f files IH]; intros s yes no;
    [now left |].
  rewrite classify_files_step. cbv zeta.
  assert (forall s1 yes1 no1,
            (forall x, In x yes1 -> In x yes \/ x = classified_entry f
               (read_file_content f)
               (score_of (classify_reply (read_file_content f)
                  (fst (post s (classify_request (read_file_content f))))))) ->
            In e (fst (fst (classify_files post files s1 yes1 no1))) ->
            In e yes
            \/ exists g, In g (f :: files)
                         /\ Classified.filename e = file_name g
                         /\ Classified.content e = read_file_content g) as Hk.
  { intros s1 yes1 no1 Hy He. apply IH in He as [He | (g & Hg & Hn)].
    - apply Hy in He as [He | ->]; [now left |].
      right. exists f. simpl. tauto.
    - right. exists g. simpl. tauto. }
  destruct (startswith _ _); [apply Hk; tauto |].
  destruct (text_eqb (verdict_of _) _); [apply Hk; tauto |].
  destruct (text_eqb (lower _) (T "yes")).
  - apply Hk. intros x Hx. apply in_app_or in Hx as [Hx | [<- | []]]; tauto.
  - destruct (text_eqb (lower _) (T "no")); apply Hk; tauto.
Qed.

(** C4.  When the scoring call of an essay fails, [quick_essay_analysis]
    returns nothing and the essay is appended with the default report: all
    five ratings 6, overall score 6.0, grade B.  The loop goes on with the
    remaining essays from the service state the failed call left, and the
    essay is in the ranking of the result.  Phase 2 returns one entry per
    essay it is given, in order.  A reply whose body lacks the completion
    field also ends with ratings 6, overall score 6.0 and grade B, whatever
    its status. *)
Theorem scoring_failure_gets_default_report
    (e : Classified.t) (rest : list Classified.t) (s : svc)
    (acc : list Essay.t) :
  call_failed (fst (post s (analysis_request e))) = true ->
  let s' := snd (post s (analysis_request e)) in
  let scored := with_analysis e default_analysis in
  let out := analyse_essays post (e :: rest) s acc in
  quick_essay_analysis post (Classified.content e) (Classified.filename e)
    (T "llama2") s = (None, s')
  /\ fst out = acc ++ scored :: fst (analyse_essays post rest s' [])
  /\ snd out = snd (analyse_essays post rest s' [])
  /\ In scored (sorted_reverse score_key (fst out))
  /\ dimensions (Essay.analysis scored) = [6; 6; 6; 6; 6]
  /\ Analysis.overall_score (Essay.analysis scored) = 6%Q
  /\ Analysis.grade (Essay.analysis scored) = T "B"
  /\ (forall l s0,
        map Essay.filename (fst (analyse_essays post l s0 []))
        = map Classified.filename l)
  /\ (forall status,
        let a := analysis_or_default (analysis_of_reply (Http status NoField)) in
        dimensions a = [6; 6; 6; 6; 6]
        /\ (Analysis.overall_score a == 6)%Q
        /\ Analysis.grade a = T "B").
Proof.
  intros Hfail s' scored out.
  assert (fst out = acc ++ scored :: fst (analyse_essays post rest s' [])
          /\ snd out = snd (analyse_essays post rest s' [])) as [H1 H2].
  { unfold out. rewrite analyse_essays_step, analyse_essays_acc.
    rewrite (analysis_of_reply_failed _ Hfail). simpl.
    now rewrite <- app_assoc. }
  split.
  { rewrite quick_essay_analysis_eq.
    now rewrite (analysis_of_reply_failed _ Hfail). }
  split; [exact H1 |]. split; [exact H2 |].
  split.
  { apply (Permutation_in _ (sorted_reverse_perm _ score_key (fst out))).
    rewrite H1. apply in_or_app. right. now left. }
  split; [reflexivity |]. split; [reflexivity |]. split; [reflexivity |].
  split; [apply analyse_essays_names |].
  intros status. cbv zeta. simpl analysis_of_reply.
  destruct (status =? 200); repeat split; vm_compute; reflexivity.
Qed.

(** C9, amended.  When the classification call of a readable file fails,
    by an exception, a status other than 200 or a body that cannot be read
    up to the string to strip, the
    classifier returns Error with no score and the failure message; the
    file is added to neither list and the loop goes on with the remaining
    files from the service state the failed call left.  Every entry of the
    result was there before or stems from one of the remaining files, and
    the essays scored afterwards are exactly the entries of the result.
    A reply with status 200 whose body lacks the completion field is not a
    failure for the code: it is classified as an empty completion, by the
    keywords alone, with score 3.0. *)
Theorem classification_failure_skips_item
    (f : file) (content : text) (rest : list file) (s : svc)
    (yes : list Classified.t) (no : list text) :
  file_read f = ReadOk content ->
  startswith (T "Error reading file") content = false ->
  call_failed (fst (post s (classify_request content))) = true ->
  let r := fst (post s (classify_request content)) in
  let s' := snd (post s (classify_request content)) in
  ollama_classify_score post content (T "llama2") s
  = (T "Error", None, failure_message r, s')
  /\ classify_files post (f :: rest) s yes no
     = classify_files post rest s' yes no
  /\ (forall e,
        In e (fst (fst (classify_files post (f :: rest) s yes no))) ->
        In e yes
        \/ exists g, In g rest /\ Classified.filename e = file_name g
                     /\ Classified.content e = read_file_content g)
  /\ (forall l s0,
        map Essay.filename (fst (analyse_essays post l s0 []))
        = map Classified.filename l)
  /\ (forall essay,
        classify_reply essay (Http 200 NoField)
        = (fallback_classification essay (T "No"), Some 3%Q, [])).
Proof.
  intros Hread Hstart Hfail r s'.
  assert (classify_reply content r = (T "Error", None, failure_message r))
    as Hr.
  { destruct (classify_reply_shape content r) as [[_ H] | [H _]];
      [exact H | unfold r in H; congruence]. }
  assert (classify_files post (f :: rest) s yes no
          = classify_files post rest s' yes no) as Hstep.
  { rewrite classify_files_step. unfold read_file_content. rewrite Hread.
    cbv zeta. rewrite Hstart. fold r. rewrite Hr. reflexivity. }
  split; [rewrite ollama_classify_score_eq; fold r; now rewrite Hr |].
  split; [exact Hstep |].
  split; [| split; [apply analyse_essays_names | reflexivity]].
  intros e He. rewrite Hstep in He. now apply classify_files_origin in He.
Qed.
End BatchFacts.

(** A failed scoring call on the scripted service. *)
Lemma scoring_failure_example :
  In (with_analysis sample_essay default_analysis)
    (sorted_reverse score_key
       (fst (analyse_essays scripted_post [sample_essay]
               [PostRaised (T "timed out")] []))).
Proof.
  exact (proj1 (proj2 (proj2 (proj2
    (scoring_failure_gets_default_report (list reply) scripted_post
       sample_essay [] [PostRaised (T "timed out")] [] eq_refl))))).
Defined.

(** A failed classification call on the scripted service: the status is
    503, the file is skipped and the next one is classified. *)
Lemma classification_failure_example :
  classify_files scripted_post [sample_file; sample_file]
    [Http 503 NoField; ok "CLASSIFICATION: NO"] [] []
  = classify_files scripted_post [sample_file] [ok "CLASSIFICATION: NO"] [] [].
Proof.
  exact (proj1 (proj2
    (classification_failure_skips_item (list reply) scripted_post
       sample_file (T "An essay on cricket.") [sample_file]
       [Http 503 NoField; ok "CLASSIFICATION: NO"] [] []
       eq_refl eq_refl eq_refl))).
Defined.

(** A reply with status 200 whose body has no completion field is a
    protocol error in the words of the specification.  The classifier
    does not return Error on it: the essay is classified by its keywords,
    with score 3.0, and the folder run scores it and ranks it. *)
Lemma missing_field_is_classified :
  failed_in_specification (Http 200 NoField) = true
  /\ classify_reply (T "Gandhi and Nehru.") (Http 200 NoField)
     = (T "Yes", Some 3%Q, [])
  /\ fst (fst (classify_files scripted_post
                 [text_file "a.txt" "Gandhi and Nehru."]
                 [Http 200 NoField] [] []))
     = [classified_entry (text_file "a.txt" "Gandhi and Nehru.")
          (T "Gandhi and Nehru.") (Some 3%Q)]
  /\ map Essay.filename
       (fst (process_essay_folder_with_quick_analysis scripted_post
               scripted_tags (fst (sample_answers 0)) missing_field_world))
     = [T "a.txt"]
  /\ map (fun rep => map Essay.filename (ranked rep))
       (reports
          (snd (process_essay_folder_with_quick_analysis scripted_post
                  scripted_tags (fst (sample_answers 0)) missing_field_world)))
     = [[T "a.txt"]].
Proof. repeat split; vm_compute; reflexivity. Qed.

(** ** Cross-zone aggregation *)


Lemma infix_app_r (part whole after : text) :
  infix part whole -> infix part (whole ++ after).
Proof.
  intros (b & a & ->). exists b, (a ++ after). now rewrite <- !app_assoc.
Qed.

Lemma infix_here (part before after : text) :
  infix part (before ++ part ++ after).
Proof. now exists before, after. Qed.

Lemma summarise_zone_acc (zone_name : text) (zone_essays : list Top.t)
    (count : nat) (acc : text) :
  snd (summarise_zone zone_name zone_essays count acc)
  = acc ++ snd (summarise_zone zone_name zone_essays count []).
Proof.
  revert count acc. induction zone_essays as [|e l IH]; intros count acc;
    cbn [summarise_zone snd].
  - now rewrite app_nil_r.
  - rewrite IH, (IH _ ([] ++ _)). now rewrite app_assoc.
Qed.

Lemma summarise_zone_entries (zone_name : text) (zone_essays : list Top.t)
    (count : nat) (acc : text) (e : Top.t) :
  In e zone_essays ->
  exists k, infix (essay_entry zone_name k e)
              (snd (summarise_zone zone_name zone_essays count acc)).
Proof.
  revert count acc. induction zone_essays as [|x l IH]; intros count acc;
    [intros [] |].
  intros [-> | Hin]; cbn [summarise_zone].
  - exists (S count). rewrite summarise_zone_acc. rewrite <- app_assoc.
    apply infix_here.
  - now apply IH.
Qed.

Lemma summarise_zones_cons (first : Top.t) (z : list Top.t)
    (zones : list (list Top.t)) (count : nat) (acc : text) :
  summarise_zones ((first :: z) :: zones) count acc
  = summarise_zones zones
      (fst (summarise_zone (Top.zone first) (first :: z) count
              (acc ++ zone_heading (Top.zone first))))
      (snd (summarise_zone (Top.zone first) (first :: z) count
              (acc ++ zone_heading (Top.zone first)))).
Proof.
  cbn [summarise_zones]. now destruct (summarise_zone _ _ _ _).
Qed.

Lemma summarise_zones_acc (zones : list (list Top.t)) (count : nat)
    (acc : text) :
  exists more, snd (summarise_zones zones count acc) = acc ++ more.
Proof.
  revert count acc. induction zones as [|z zones IH]; intros count acc.
  - exists []. cbn [summarise_zones snd]. now rewrite app_nil_r.
  - destruct z as [|first z]; [apply IH |].
    rewrite summarise_zones_cons.
    destruct (IH (fst (summarise_zone (Top.zone first) (first :: z) count
                         (acc ++ zone_heading (Top.zone first))))
                 (snd (summarise_zone (Top.zone first) (first :: z) count
                         (acc ++ zone_heading (Top.zone first)))))
      as (more & ->).
    rewrite summarise_zone_acc. rewrite <- !app_assoc. eexists. reflexivity.
Qed.

(** Every essay of every zone has its entry in the combined summary. *)
Lemma summarise_zones_entries (zones : list (list Top.t)) (count : nat)
    (acc : text) (z : list Top.t) (e : Top.t) :
  Forall uniform_zone zones -> In z zones -> In e z ->
  exists k, infix (essay_entry (Top.zone e) k e)
              (snd (summarise_zones zones count acc)).
Proof.
  revert count acc. induction zones as [|z0 zones IH]; intros count acc Hu;
    [intros [] |].
  apply Forall_cons_iff in Hu as [Hu0 Hu].
  intros [-> | Hz] He.
  - destruct z as [|first z]; [destruct He |].
    rewrite summarise_zones_cons.
    destruct (summarise_zones_acc zones
                (fst (summarise_zone (Top.zone first) (first :: z) count
                        (acc ++ zone_heading (Top.zone first))))
                (snd (summarise_zone (Top.zone first) (first :: z) count
                        (acc ++ zone_heading (Top.zone first)))))
      as (more & ->).
    destruct (summarise_zone_entries (Top.zone first) (first :: z) count
                (acc ++ zone_heading (Top.zone first)) e He) as (k & Hk).
    exists k. rewrite (Hu0 e first He (or_introl eq_refl)).
    now apply infix_app_r.
  - destruct z0 as [|first z0]; [now apply IH |].
    rewrite summarise_zones_cons. now apply IH.
Qed.

Lemma map_snd_combine (A B : Type) (la : list A) (lb : list B) :
  List.length la = List.length lb -> map snd (combine la lb) = lb.
Proof.
  revert lb. induction la as [|a la IH]; intros [|b lb]; simpl;
    try discriminate; [reflexivity |].
  intros [= H]. now rewrite IH.
Qed.

Lemma map_snd_filter (A B : Type) (p : B -> bool) (l : list (A * B)) :
  map snd (filter (fun z => p (snd z)) l) = filter p (map snd l).
Proof.
  induction l as [|[a b] l IH]; simpl; [reflexivity |].
  destruct (p b); simpl; now rewrite IH.
Qed.

Lemma valid_zones_candidates (zone_names : list text)
    (all_zone_essays : list (list Top.t)) :
  List.length zone_names = List.length all_zone_essays ->
  map snd (valid_zones_of zone_names all_zone_essays)
  = filter (@nonempty Top.t) all_zone_essays.
Proof.
  intros H. unfold valid_zones_of.
  rewrite (map_snd_filter text (list Top.t) (@nonempty Top.t)).
  now rewrite map_snd_combine.
Qed.

Lemma top_of_report_uniform (zone_name : text) (rep : zone_report) :
  uniform_zone (top_of_report zone_name rep).
Proof.
  assert (forall e, In e (top_of_report zone_name rep) ->
                    Top.zone e = zone_name) as H.
  { intros e He. apply in_map_iff in He as ([rank essay] & <- & _).
    reflexivity. }
  intros e1 e2 H1 H2. now rewrite (H e1 H1), (H e2 H2).
Qed.

Lemma infix_trans (a b c : text) : infix a b -> infix b c -> infix a c.
Proof.
  intros (b1 & b2 & ->) (c1 & c2 & ->).
  exists (c1 ++ b1), (b2 ++ c2). now rewrite <- !app_assoc.
Qed.

(** The lines of an entry: each value the entry embeds occurs in it. *)
Lemma essay_entry_parts (zone_name : text) (k : nat) (e : Top.t) :
  infix (Top.filename e) (essay_entry zone_name k e)
  /\ infix zone_name (essay_entry zone_name k e)
  /\ infix (Top.strengths e) (essay_entry zone_name k e)
  /\ infix (firstn 400 (Top.content e)) (essay_entry zone_name k e).
Proof.
  unfold essay_entry. repeat split.
  - exists (nl ++ T "Essay " ++ text_of_Z (Z.of_nat k) ++ T ": ").
    eexists. rewrite <- !app_assoc. reflexivity.
  - exists (nl ++ T "Essay " ++ text_of_Z (Z.of_nat k) ++ T ": "
            ++ Top.filename e ++ T " (from ").
    eexists. rewrite <- !app_assoc. reflexivity.
  - exists (nl ++ T "Essay " ++ text_of_Z (Z.of_nat k) ++ T ": "
            ++ Top.filename e ++ T " (from " ++ zone_name ++ T ")" ++ nl
            ++ T "Zone Rank: #" ++ text_of_Z (Z.of_nat (Top.zone_rank e))
            ++ T ", Zone Score: " ++ format_1f (Top.overall_score e)
            ++ T "/10" ++ nl ++ T "Strengths: ").
    eexists. rewrite <- !app_assoc. reflexivity.
  - exists (nl ++ T "Essay " ++ text_of_Z (Z.of_nat k) ++ T ": "
            ++ Top.filename e ++ T " (from " ++ zone_name ++ T ")" ++ nl
            ++ T "Zone Rank: #" ++ text_of_Z (Z.of_nat (Top.zone_rank e))
            ++ T ", Zone Score: " ++ format_1f (Top.overall_score e)
            ++ T "/10" ++ nl ++ T "Strengths: " ++ Top.strengths e ++ nl
            ++ T "Content Preview: ").
    eexists. rewrite <- !app_assoc. reflexivity.
Qed.

Section ZoneFacts.
Variable svc : Type.
Variable post : svc -> request -> reply * svc.
Variable get_tags : svc -> tags_reply * svc.

(** A folder run leaves the earlier reports in place; when it returns
    essays it adds one report, whose ranking is the sorted result. *)
Lemma process_folder_effects (input_folder : folder) (w : world svc) :
  let out :=
    process_essay_folder_with_quick_analysis post get_tags input_folder w in
  championship (snd out) = championship w
  /\ ((fst out = [] /\ reports (snd out) = reports w)
      \/ exists rep, reports (snd out) = reports w ++ [rep]
                     /\ ranked rep = sorted_reverse score_key (fst out)
                     /\ fst out <> []).
Proof.
  unfold process_essay_folder_with_quick_analysis.
  destruct (folder_files input_folder) as [files|]; [| now split; [| left]].
  destruct (test_ollama_connection get_tags (service w)) as [c s0].
  destruct (negb c); [now split; [| left] |].
  destruct files as [|f files]; [now split; [| left] |].
  destruct (classify_files post (f :: files) s0 [] []) as [[yes no] s1].
  destruct yes as [|y yes]; [now split; [| left] |].
  destruct (analyse_essays post (y :: yes) s1 []) as [done s2].
  destruct (simple_comparative_ranking post done (T "llama2") s2) as [fr s3].
  destruct done as [|o done]; [now split; [| left] |].
  split; [reflexivity |]. right. eexists.
  split; [reflexivity | split; [reflexivity | discriminate]].
Qed.

Lemma process_single_zone_effects (zone_folder : folder) (zone_name : text)
    (w : world svc) :
  let out := process_single_zone_for_multi post get_tags zone_folder zone_name w in
  championship (snd out) = championship w
  /\ ((fst out = [] /\ reports (snd out) = reports w)
      \/ exists rep, reports (snd out) = reports w ++ [rep]
                     /\ fst out = top_of_report zone_name rep).
Proof.
  unfold process_single_zone_for_multi.
  pose proof (process_folder_effects zone_folder w) as H. cbv zeta in H.
  destruct (process_essay_folder_with_quick_analysis post get_tags zone_folder w)
    as [done w']. simpl in H. destruct H as [Hc H].
  destruct done as [|o done]; simpl.
  - split; [exact Hc |]. left. split; [reflexivity |].
    destruct H as [[_ H] | (rep & _ & _ & H)]; [exact H | now destruct H].
  - split; [exact Hc |].
    destruct H as [[H _] | (rep & H & Hr & _)]; [discriminate |].
    right. exists rep. split; [exact H |].
    unfold top_of_report. now rewrite Hr.
Qed.

(** What holds of the zones the loop has collected so far. *)
Lemma process_zones_invariant (zones : list (folder * text)) :
  forall (w : world svc) (zone_names : list text)
         (all_zone_essays : list (list Top.t)),
    List.length zone_names = List.length all_zone_essays ->
    Forall uniform_zone all_zone_essays ->
    (forall z, In z all_zone_essays ->
       z = [] \/ exists rep name, In rep (reports w) /\ z = top_of_report name rep) ->
    let run := process_zones post get_tags zones w zone_names all_zone_essays in
    List.length (fst (fst run)) = List.length (snd (fst run))
    /\ Forall uniform_zone (snd (fst run))
    /\ (forall z, In z (snd (fst run)) ->
          z = [] \/ exists rep name,
                      In rep (reports (snd run)) /\ z = top_of_report name rep)
    /\ (exists added, reports (snd run) = reports w ++ added)
    /\ championship (snd run) = championship w.
Proof.
  induction zones as [|[zone_folder zone_name] zones IH];
    intros w zone_names all_zone_essays Hlen Hu Hrep.
  - cbn. repeat split; try assumption. exists []. now rewrite app_nil_r.
  - cbn [process_zones].
    destruct (folder_files zone_folder) as [files|]; [| now apply IH].
    pose proof (process_single_zone_effects zone_folder zone_name w) as H.
    cbv zeta in H.
    destruct (process_single_zone_for_multi post get_tags zone_folder zone_name w)
      as [top w']. simpl in H. destruct H as [Hc H].
    assert (exists added, reports w' = reports w ++ added) as (added & Hadd).
    { destruct H as [[_ ->] | (rep & -> & _)];
        [exists []; now rewrite app_nil_r | now exists [rep]]. }
    specialize (IH w' (zone_names ++ [zone_name]) (all_zone_essays ++ [top])).
    cbv zeta in IH.
    destruct IH as (I1 & I2 & I3 & (more & I4) & I5).
    + rewrite !length_app. simpl. now rewrite Hlen.
    + apply Forall_app. split; [exact Hu |].
      constructor; [| constructor].
      destruct H as [[-> _] | (rep & _ & ->)];
        [intros e1 e2 [] | apply top_of_report_uniform].
    + intros z Hz. apply in_app_or in Hz as [Hz | [<- | []]].
      * destruct (Hrep z Hz) as [-> | (rep & name & Hin & ->)]; [now left |].
        right. exists rep, name. split; [| reflexivity].
        rewrite Hadd. apply in_or_app. now left.
      * destruct H as [[-> _] | (rep & Hr & ->)]; [now left |].
        right. exists rep, zone_name. split; [| reflexivity].
        rewrite Hr. apply in_or_app. right. now left.
    + repeat split; try assumption.
      * exists (added ++ more). now rewrite I4, Hadd, app_assoc.
      * now rewrite I5.
Qed.

(** How the competition ends once two zones or more are left: the request
    is sent, and the result is written next to the zone reports when it is
    a string. *)
Lemma multi_zone_competition_compares
    (n : Z) (answers : nat -> folder * text) (w : world svc) :
  2 <= n ->
  let run :=
    process_zones post get_tags (map answers (seq 0 (Z.to_nat n))) w [] [] in
  let candidates := filter (@nonempty Top.t) (snd (fst run)) in
  let answer := post (service (snd run)) (grand_request candidates (T "llama2")) in
  let report written :=
    {| service := snd answer;
       reports := reports (snd run);
       championship :=
         Some {| participating_zones := List.length candidates;
                 total_essays := list_sum (map (@List.length Top.t) candidates);
                 grand_result := written |} |} in
  (2 <= List.length candidates)%nat ->
  multi_zone_competition post get_tags (Some n) answers w
  = match grand_answer (fst answer) with
    | Str grand => (Compared grand, report grand)
    | NotStr => (ReportWriteRaised, report [])
    end.
Proof.
  intros Hn.
  pose proof (process_zones_invariant (map answers (seq 0 (Z.to_nat n))) w
                [] [] eq_refl (Forall_nil _)) as Hinv.
  cbv zeta in *. unfold multi_zone_competition.
  rewrite (proj2 (Z.ltb_ge n 2) Hn).
  destruct (process_zones post get_tags (map answers (seq 0 (Z.to_nat n))) w [] [])
    as [[zone_names all_zone_essays] w1].
  cbn [fst snd] in *.
  destruct Hinv as (Hlen & _); [intros z [] |].
  pose proof (valid_zones_candidates zone_names all_zone_essays Hlen) as Hv.
  assert (List.length (valid_zones_of zone_names all_zone_essays)
          = List.length (filter (@nonempty Top.t) all_zone_essays)) as Hl.
  { now rewrite <- Hv, length_map. }
  intros Hge. rewrite Hl. rewrite (proj2 (Nat.ltb_ge _ _) Hge).
  assert (list_sum (map (fun z : text * list Top.t => List.length (snd z))
                      (valid_zones_of zone_names all_zone_essays))
          = list_sum (map (@List.length Top.t)
                        (filter (@nonempty Top.t) all_zone_essays))) as ->
    by now rewrite <- Hv, map_map.
  unfold compare_zones_top_essays. rewrite Hv.
  now destruct (post (service w1) _) as [r s'].
Qed.

(** C8.  After the zones are processed, the zones with no top essay are
    dropped.  With fewer than two zones left the competition ends with the
    message that two valid zones are needed: no request is sent and the
    world is the one the zone runs left, with every report they wrote.
    With two or more zones left one request is sent.  Its prompt holds, for
    every essay of every zone left, the lines of that essay: its number,
    its file name and zone, its rank and score in the zone, its strengths
    and the first 400 characters of its content.  The competition then ends
    with the comparison recorded next to the zone reports: the completion
    as it is, an empty text when the field is absent, an error message when
    the call failed; when the field of a reply with status 200 is not a
    string, writing the report raises after its heading.  Every zone left
    is the top of a report that is still there. *)
Theorem aggregation_needs_two_nonempty_zones
    (n : Z) (answers : nat -> folder * text) (w : world svc) :
  2 <= n ->
  let run :=
    process_zones post get_tags (map answers (seq 0 (Z.to_nat n))) w [] [] in
  let all_zone_essays := snd (fst run) in
  let w1 := snd run in
  let candidates := filter (@nonempty Top.t) all_zone_essays in
  let request := grand_request candidates (T "llama2") in
  let answer := post (service w1) request in
  let competition := multi_zone_competition post get_tags (Some n) answers w in
  let report written :=
    {| service := snd answer;
       reports := reports w1;
       championship :=
         Some {| participating_zones := List.length candidates;
                 total_essays := list_sum (map (@List.length Top.t) candidates);
                 grand_result := written |} |} in
  map snd (valid_zones_of (fst (fst run)) all_zone_essays) = candidates
  /\ (forall zone, In zone candidates <-> In zone all_zone_essays /\ zone <> [])
  /\ ((List.length candidates < 2)%nat -> competition = (NeedTwoValidZones, w1))
  /\ ((2 <= List.length candidates)%nat ->
      (forall v, fst answer = Http 200 (Field v) ->
                 competition = (Compared v, report v))
      /\ (fst answer = Http 200 NoField -> competition = (Compared [], report []))
      /\ (forall err, fst answer = Http 200 (NotText err) ->
                      competition = (ReportWriteRaised, report []))
      /\ (forall err,
            fst answer = PostRaised err \/ fst answer = Http 200 (Unreadable err) ->
            competition
            = (Compared (T "Error in grand comparison: " ++ err),
               report (T "Error in grand comparison: " ++ err)))
      /\ (forall status b, fst answer = Http status b -> status <> 200 ->
            competition
            = (Compared (T "Error: HTTP " ++ text_of_Z status),
               report (T "Error: HTTP " ++ text_of_Z status))))
  /\ (forall zone e, In zone candidates -> In e zone ->
        exists k summary,
          req_prompt request = GrandPrompt summary
          /\ infix (nl ++ T "Essay " ++ text_of_Z (Z.of_nat k) ++ T ": "
                       ++ Top.filename e ++ T " (from " ++ Top.zone e ++ T ")"
                       ++ nl
                    ++ T "Zone Rank: #" ++ text_of_Z (Z.of_nat (Top.zone_rank e))
                       ++ T ", Zone Score: " ++ format_1f (Top.overall_score e)
                       ++ T "/10" ++ nl
                    ++ T "Strengths: " ++ Top.strengths e ++ nl
                    ++ T "Content Preview: " ++ firstn 400 (Top.content e)
                       ++ T "..." ++ nl) summary
          /\ infix (Top.filename e) summary
          /\ infix (Top.zone e) summary
          /\ infix (Top.strengths e) summary
          /\ infix (firstn 400 (Top.content e)) summary)
  /\ (exists added, reports w1 = reports w ++ added)
  /\ (forall zone, In zone candidates ->
        exists rep name, In rep (reports w1) /\ zone = top_of_report name rep).
Proof.
  intros Hn.
  pose proof (multi_zone_competition_compares n answers w Hn) as Hcmp.
  pose proof (process_zones_invariant (map answers (seq 0 (Z.to_nat n))) w
                [] [] eq_refl (Forall_nil _)) as Hinv.
  cbv zeta in *.
  assert ((List.length
             (filter (@nonempty Top.t)
                (snd (fst (process_zones post get_tags
                             (map answers (seq 0 (Z.to_nat n))) w [] [])))) < 2)%nat ->
          multi_zone_competition post get_tags (Some n) answers w
          = (NeedTwoValidZones,
             snd (process_zones post get_tags
                    (map answers (seq 0 (Z.to_nat n))) w [] []))) as Hfew.
  { unfold multi_zone_competition. rewrite (proj2 (Z.ltb_ge n 2) Hn).
    destruct (process_zones post get_tags (map answers (seq 0 (Z.to_nat n))) w [] [])
      as [[zone_names all_zone_essays] w1].
    cbn [fst snd] in *.
    destruct Hinv as (Hlen & _); [intros z [] |].
    pose proof (valid_zones_candidates zone_names all_zone_essays Hlen) as Hv.
    intros Hlt. rewrite <- Hv, length_map in Hlt.
    now rewrite (proj2 (Nat.ltb_lt _ _) Hlt). }
  destruct (process_zones post get_tags (map answers (seq 0 (Z.to_nat n))) w [] [])
    as [[zone_names all_zone_essays] w1].
  cbn [fst snd] in *.
  destruct Hinv as (Hlen & Hu & Hrep & Hadd & _); [intros z [] |].
  split; [exact (valid_zones_candidates zone_names all_zone_essays Hlen) |].
  split.
  { intros zone. rewrite filter_In. destruct zone; simpl; split;
      intros [H1 H2]; split; try assumption; try discriminate; try reflexivity.
    now destruct H2. }
  split; [exact Hfew |].
  split.
  { intros Hge. rewrite (Hcmp Hge). unfold grand_answer.
    split; [now intros v -> |]. split; [now intros -> |].
    split; [now intros err -> |].
    split; [now intros err [-> | ->] |].
    intros status b -> Hs. now rewrite (proj2 (Z.eqb_neq _ _) Hs). }
  split.
  { intros zone e Hz He. unfold grand_request. cbn [req_prompt].
    destruct (summarise_zones_entries
                (filter (@nonempty Top.t) all_zone_essays) 0 [] zone e)
      as (k & Hk); try assumption.
    - apply Forall_forall. intros z Hzf. apply filter_In in Hzf as [Hzf _].
      now apply (proj1 (Forall_forall _ _) Hu).
    - destruct (essay_entry_parts (Top.zone e) k e) as (P1 & P2 & P3 & P4).
      exists k. eexists. split; [reflexivity |].
      split; [exact Hk |].
      repeat split; eapply infix_trans; eauto. }
  split; [exact Hadd |].
  intros zone Hz. apply filter_In in Hz as [Hz Hne].
  destruct (Hrep zone Hz) as [-> | H]; [discriminate | exact H].
Qed.
End ZoneFacts.

(** One zone with an essay and one path that does not exist: the
    competition ends for want of a second valid zone, and the report of
    the first zone is there.  Two zones of three essays each: the six
    essays are compared, and the completion is recorded as it is. *)
Lemma aggregation_examples :
  multi_zone_competition scripted_post scripted_tags (Some 2) sample_answers
    sample_world
  = (NeedTwoValidZones,
     snd (process_zones scripted_post scripted_tags
            (map sample_answers (seq 0 2)) sample_world [] []))
  /\ multi_zone_competition scripted_post scripted_tags (Some 2)
       two_zone_answers two_zone_world
     = (Compared (T " 1st Place: n1.txt from North "),
        {| service := [];
           reports :=
             reports (snd (process_zones scripted_post scripted_tags
                             (map two_zone_answers (seq 0 2)) two_zone_world
                             [] []));
           championship :=
             Some {| participating_zones := 2;
                     total_essays := 6;
                     grand_result := T " 1st Place: n1.txt from North " |} |}).
Proof.
  split.
  - apply (proj1 (proj2 (proj2
      (aggregation_needs_two_nonempty_zones (list reply) scripted_post
         scripted_tags 2 sample_answers sample_world ltac:(lia))))).
    vm_compute. lia.
  - assert (2 <= 2) as Hn by lia.
    rewrite (proj1 (proj1 (proj2 (proj2 (proj2
      (aggregation_needs_two_nonempty_zones (list reply) scripted_post
         scripted_tags 2 two_zone_answers two_zone_world Hn))))
      ltac:(vm_compute; lia))
      (T " 1st Place: n1.txt from North ") ltac:(vm_compute; reflexivity)).
    vm_compute. reflexivity.
Defined.

(** The prompt of the two-zone example names the six files, and a field
    that is not a string ends the competition at the write. *)
Example two_zone_prompt_and_null_field :
  Forall (fun name =>
            contains (T name)
              match req_prompt
                      (grand_request
                         (filter (@nonempty Top.t)
                            (snd (fst (process_zones scripted_post scripted_tags
                                         (map two_zone_answers (seq 0 2))
                                         two_zone_world [] []))))
                         (T "llama2")) with
              | GrandPrompt summary => summary
              | _ => []
              end = true)
    ["n1.txt"; "n2.txt"; "n3.txt"; "s1.txt"; "s2.txt"; "s3.txt"]%string
  /\ fst (multi_zone_competition scripted_post scripted_tags (Some 2)
            two_zone_answers null_grand_world)
     = ReportWriteRaised.
Proof.
  split; [| vm_compute; reflexivity].
  repeat (apply Forall_cons; [vm_compute; reflexivity |]). apply Forall_nil.
Qed.

(** ** The model score is advisory *)

Lemma sorted_reverse_map (A B : Type) (f : A -> B) (key1 : A -> Q)
    (key2 : B -> Q) (l : list A) :
  (forall x, key2 (f x) = key1 x) ->
  sorted_reverse key2 (map f l) = map f (sorted_reverse key1 l).
Proof.
  intros Hk.
  assert (forall x m, insert_reverse key2 (f x) (map f m)
                      = map f (insert_reverse key1 x m)) as Hi.
  { intros x m. induction m as [|y m IH]; [reflexivity |]. simpl.
    rewrite !Hk. destruct (Qle_bool (key1 y) (key1 x)); [reflexivity |].
    simpl. now rewrite IH. }
  induction l as [|x l IH]; [reflexivity |]. simpl. now rewrite IH, Hi.
Qed.

Section AdvisoryScore.
Variable svc : Type.
Variable post : svc -> request -> reply * svc.

Lemma analyse_essays_without_score (l : list Classified.t) (s : svc)
    (acc : list Essay.t) :
  analyse_essays post (map without_score l) s (map erase_score acc)
  = (map erase_score (fst (analyse_essays post l s acc)),
     snd (analyse_essays post l s acc)).
Proof.
  revert s acc. induction l as [|e l IH]; intros s acc; [reflexivity |].
  cbn [map]. rewrite !analyse_essays_step.
  change (analysis_request (without_score e)) with (analysis_request e).
  rewrite <- IH. f_equal. now rewrite map_app.
Qed.

(** X2.  The score parsed by the classifier has no effect on scoring or
    ranking: with every ['basic_score'] taken away, phase 2 calls the
    service in the same way and the ranking is the same, entry by entry,
    but for that field. *)
Lemma basic_score_is_advisory (l : list Classified.t) (s : svc) :
  sorted_reverse score_key
    (fst (analyse_essays post (map without_score l) s []))
  = map erase_score
      (sorted_reverse score_key (fst (analyse_essays post l s [])))
  /\ snd (analyse_essays post (map without_score l) s [])
     = snd (analyse_essays post l s []).
Proof.
  pose proof (analyse_essays_without_score l s []) as H. cbn [map] in H.
  rewrite H. cbn [fst snd]. split; [| reflexivity].
  now apply sorted_reverse_map.
Qed.
End AdvisoryScore.

(** ** A run from end to end *)

(** Five files, three classified Yes; their overall scores come out as
    8.4, 6.0 (the default report, after a failed call) and 7.2.  The
    ranking lists them as 8.4, 7.2, 6.0 with grades A, B+ and B. *)
Example scenario_ranking :
  map (fun r =>
         map (fun e => (Essay.filename e,
                        Analysis.overall_score (Essay.analysis e),
                        Analysis.grade (Essay.analysis e)))
           (ranked r))
    (reports (snd (process_essay_folder_with_quick_analysis scripted_post
                     scripted_tags scenario_folder scenario_world)))
  = [[(T "one.txt", 42 # 5, T "A");
      (T "five.txt", 36 # 5, T "B+");
      (T "three.txt", 6%Q, T "B")]].
Proof. vm_compute. reflexivity. Qed.

(** * Further properties *)

(** ** The model score *)

(** X1.  Whatever the response, the parsed score lies between 1.0 and 5.9,
    and it is 3.0 when the response has no [SCORE:] label; so every score
    the classifier returns lies between 1.0 and 5.9. *)
Theorem model_score_between_one_and_five_point_nine :
  (forall output, (1 <= parsed_score output <= 59 # 10)%Q)
  /\ (forall output,
        (forall pre s, output = pre ++ s -> ~ label_here (T "SCORE:") s) ->
        parsed_score output = 3%Q)
  /\ (forall essay r q,
        score_of (classify_reply essay r) = Some q -> (1 <= q <= 59 # 10)%Q).
Proof.
  split; [exact parsed_score_range |]. split.
  - intros output Habsent. unfold parsed_score.
    assert (re_search score_at output = None) as ->; [| reflexivity].
    apply re_search_None. intros pre post E. unfold score_at.
    now rewrite (proj2 (literal_ci_None _ post) (Habsent pre post E)).
  - intros essay r q. unfold score_of, classify_reply.
    destruct r as [err | status b]; [discriminate |].
    destruct (negb (status =? 200)); [discriminate |].
    destruct (response_field b) as [err | v]; [discriminate |].
    simpl. intros [= <-]. apply parsed_score_range.
Qed.

(** ** Phase 1 *)

Lemma startswith_app (p rest : text) : startswith p (p ++ rest) = true.
Proof. apply startswith_iff. now exists rest. Qed.

Section PhaseOneFacts.
Variable svc : Type.
Variable post : svc -> request -> reply * svc.

(** X3.  A file that could not be read, and also a file that was read but
    whose text begins with [Error reading file], is skipped before any
    request is sent: the lists and the service state are as if the file
    were not in the folder. *)
Theorem unread_file_is_skipped_without_a_call
    (f : file) (rest : list file) (s : svc)
    (yes : list Classified.t) (no : list text) :
  (exists err, file_read f = ReadFailed err)
  \/ (exists tail, file_read f = ReadOk (T "Error reading file" ++ tail)) ->
  classify_files post (f :: rest) s yes no
  = classify_files post rest s yes no.
Proof.
  intros H. rewrite classify_files_step. cbv zeta.
  assert (startswith (T "Error reading file") (read_file_content f) = true)
    as ->; [| reflexivity].
  unfold read_file_content.
  destruct H as [(err & ->) | (tail & ->)]; [| apply startswith_app].
  change (T "Error reading file: ") with (T "Error reading file" ++ T ": ").
  rewrite <- app_assoc. apply startswith_app.
Qed.

Lemma recording_post_log (s : svc * list request) (req : request) :
  snd (snd (recording_post post s req)) = snd s ++ [req].
Proof. unfold recording_post. now destruct (post (fst s) req). Qed.

Lemma sent_contents_cons (f : file) (files : list file) :
  sent_contents (f :: files)
  = if startswith (T "Error reading file") (read_file_content f)
    then sent_contents files
    else read_file_content f :: sent_contents files.
Proof.
  unfold sent_contents. cbn [map filter].
  now destruct (startswith _ (read_file_content f)).
Qed.

Lemma sent_contents_length (files : list file) :
  (List.length (sent_contents files) <= List.length files)%nat.
Proof.
  unfold sent_contents. rewrite <- (length_map read_file_content files).
  apply filter_length_le.
Qed.

Lemma classify_files_log
    (files : list file) (s : svc * list request)
    (yes : list Classified.t) (no : list text) :
  snd (snd (classify_files (recording_post post) files s yes no))
  = snd s ++ map classify_request (sent_contents files).
Proof.
  revert s yes no. induction files as [|f files IH]; intros s yes no.
  - cbn. now rewrite app_nil_r.
  - rewrite classify_files_step, sent_contents_cons. cbv zeta.
    destruct (startswith _ (read_file_content f)); [apply IH |].
    assert (forall yes1 no1,
              snd (snd (classify_files (recording_post post) files
                          (snd (recording_post post s
                                  (classify_request (read_file_content f))))
                          yes1 no1))
              = snd s ++ map classify_request
                           (read_file_content f :: sent_contents files))
      as Hk.
    { intros yes1 no1. rewrite IH, recording_post_log.
      now rewrite <- app_assoc. }
    destruct (text_eqb (verdict_of _) _); [apply Hk |].
    destruct (text_eqb (lower _) (T "yes")); [apply Hk |].
    destruct (text_eqb (lower _) (T "no")); apply Hk.
Qed.


Lemma classify_files_growth
    (files : list file) (s : svc)
    (yes : list Classified.t) (no : list text) :
  exists ys ns,
    fst (fst (classify_files post files s yes no)) = yes ++ ys
    /\ snd (fst (classify_files post files s yes no)) = no ++ ns
    /\ (List.length ys + List.length ns
        <= List.length (sent_contents files))%nat
    /\ Forall (fun e => In (Classified.filename e) (map file_name files)) ys
    /\ Forall (fun n => In n (map file_name files)) ns.
Proof.
  revert s yes no. induction files as [|f files IH]; intros s yes no.
  - exists [], []. cbn. rewrite !app_nil_r. repeat split; constructor.
  - rewrite classify_files_step, sent_contents_cons. cbv zeta.
    assert (forall ys, Forall (fun e => In (Classified.filename e)
                                          (map file_name files)) ys ->
                       Forall (fun e => In (Classified.filename e)
                                          (map file_name (f :: files))) ys)
      as Hwy.
    { intros ys. apply Forall_impl. intros e He. now right. }
    assert (forall ns, Forall (fun n => In n (map file_name files)) ns ->
                       Forall (fun n => In n (map file_name (f :: files))) ns)
      as Hwn.
    { intros ns. apply Forall_impl. intros e He. now right. }
    destruct (startswith _ (read_file_content f)).
    { destruct (IH s yes no) as (ys & ns & H1 & H2 & H3 & H4 & H5).
      exists ys, ns. repeat split; auto. }
    destruct (text_eqb (verdict_of _) _).
    { destruct (IH (snd (post s (classify_request (read_file_content f))))
                  yes no) as (ys & ns & H1 & H2 & H3 & H4 & H5).
      exists ys, ns. cbn [List.length]. repeat split; auto. }
    destruct (text_eqb (lower _) (T "yes")).
    { destruct (IH (snd (post s (classify_request (read_file_content f))))
                  (yes ++ [classified_entry f (read_file_content f)
                             (score_of (classify_reply (read_file_content f)
                                (fst (post s (classify_request
                                                (read_file_content f))))))])
                  no) as (ys & ns & H1 & H2 & H3 & H4 & H5).
      eexists (_ :: ys), ns. rewrite H1, H2, <- app_assoc.
      cbn [List.length]. repeat split; auto; [lia |].
      constructor; [now left | auto]. }
    destruct (text_eqb (lower _) (T "no")).
    { destruct (IH (snd (post s (classify_request (read_file_content f))))
                  yes (no ++ [file_name f]))
        as (ys & ns & H1 & H2 & H3 & H4 & H5).
      exists ys, (file_name f :: ns). rewrite H1, H2, <- app_assoc.
      cbn [List.length]. repeat split; auto; [lia |].
      constructor; [now left | auto]. }
    destruct (IH (snd (post s (classify_request (read_file_content f))))
                yes no) as (ys & ns & H1 & H2 & H3 & H4 & H5).
    exists ys, ns. cbn [List.length]. repeat split; auto.
Qed.

(** X5.  Phase 1 only appends: the two lists it returns extend the lists it
    was given, each file adds an entry to at most one of them, and every
    entry added carries the name of one of the files. *)
Theorem phase_one_appends_at_most_one_entry_per_file
    (files : list file) (s : svc)
    (yes : list Classified.t) (no : list text) :
  exists ys ns,
    fst (fst (classify_files post files s yes no)) = yes ++ ys
    /\ snd (fst (classify_files post files s yes no)) = no ++ ns
    /\ (List.length ys + List.length ns
        <= List.length (sent_contents files))%nat
    /\ Forall (fun e => In (Classified.filename e) (map file_name files)) ys
    /\ Forall (fun n => In n (map file_name files)) ns.
Proof. apply classify_files_growth. Qed.
End PhaseOneFacts.

(** A text file that begins with the words of the read error is skipped. *)
Lemma misleading_file_example :
  classify_files scripted_post [misleading_file; sample_file]
    [ok "CLASSIFICATION: NO"] [] []
  = classify_files scripted_post [sample_file] [ok "CLASSIFICATION: NO"] [] [].
Proof.
  apply (unread_file_is_skipped_without_a_call (list reply) scripted_post
           misleading_file [sample_file] [ok "CLASSIFICATION: NO"] [] []).
  right. eexists. reflexivity.
Defined.

(** ** Phase 2 and the folder run *)

Lemma preview_is_slice (essay : text) :
  (if Nat.ltb 1000 (List.length essay) then firstn 1000 essay else essay)
  = firstn 1000 essay.
Proof.
  destruct (Nat.ltb_spec 1000 (List.length essay)); [reflexivity |].
  symmetry. now apply firstn_all2.
Qed.

Section FolderFacts.
Variable svc : Type.
Variable post : svc -> request -> reply * svc.
Variable get_tags : svc -> tags_reply * svc.

Lemma analyse_essays_length (l : list Classified.t) (s : svc)
    (acc : list Essay.t) :
  List.length (fst (analyse_essays post l s acc))
  = (List.length acc + List.length l)%nat.
Proof.
  rewrite analyse_essays_acc. cbn [fst]. rewrite length_app. f_equal.
  rewrite <- (length_map Essay.filename (fst (analyse_essays post l s []))).
  rewrite analyse_essays_names. apply length_map.
Qed.

Lemma analyse_essays_log (l : list Classified.t) (s : svc * list request)
    (acc : list Essay.t) :
  snd (snd (analyse_essays (recording_post post) l s acc))
  = snd s ++ map analysis_request l.
Proof.
  revert s acc. induction l as [|e l IH]; intros s acc.
  - cbn. now rewrite app_nil_r.
  - rewrite analyse_essays_step, IH, recording_post_log.
    cbn [map]. now rewrite <- app_assoc.
Qed.

(** X6.  Phase 2 sends exactly one scoring request per essay it is given,
    in order, whatever the replies are, and returns one scored entry per
    essay.  Each request carries the file name and the first 1000
    characters of the text: the test on the length changes nothing. *)
Theorem phase_two_sends_one_request_per_essay
    (l : list Classified.t) (s : svc * list request) (acc : list Essay.t) :
  snd (snd (analyse_essays (recording_post post) l s acc))
  = snd s ++ map analysis_request l
  /\ (forall s0,
        List.length (fst (analyse_essays post l s0 acc))
        = (List.length acc + List.length l)%nat)
  /\ (forall e,
        req_prompt (analysis_request e)
        = AnalysisPrompt (Classified.filename e)
            (firstn 1000 (Classified.content e))).
Proof.
  split; [apply analyse_essays_log |].
  split; [intros s0; apply analyse_essays_length |].
  intros e. unfold analysis_request. cbn [req_prompt].
  now rewrite preview_is_slice.
Qed.

Lemma simple_comparative_ranking_eq (essays_data : list Essay.t)
    (model : text) (s : svc) :
  simple_comparative_ranking post essays_data model s
  = (ranking_text (fst (post s (ranking_request essays_data model))),
     snd (post s (ranking_request essays_data model))).
Proof.
  unfold simple_comparative_ranking, ranking_request, ranking_text.
  now destruct (post s _).
Qed.

(** The four ways a folder run ends. *)
Lemma process_folder_cases (input_folder : folder) (w : world svc) :
  let out :=
    process_essay_folder_with_quick_analysis post get_tags input_folder w in
  let s0 := snd (test_ollama_connection get_tags (service w)) in
  (folder_files input_folder = None /\ out = ([], w))
  \/ (exists files,
        folder_files input_folder = Some files
        /\ (fst (test_ollama_connection get_tags (service w)) = false
            \/ files = [])
        /\ out = ([], with_service w s0))
  \/ (exists files no s1,
        folder_files input_folder = Some files
        /\ fst (test_ollama_connection get_tags (service w)) = true
        /\ classify_files post files s0 [] [] = ([], no, s1)
        /\ out = ([], with_service w s1))
  \/ (exists files yes no s1,
        folder_files input_folder = Some files
        /\ fst (test_ollama_connection get_tags (service w)) = true
        /\ classify_files post files s0 [] [] = (yes, no, s1)
        /\ yes <> []
        /\ let done := fst (analyse_essays post yes s1 []) in
           let s2 := snd (analyse_essays post yes s1 []) in
           let answer := post s2 (ranking_request done (T "llama2")) in
           out = (done,
                  {| service := snd answer;
                     reports :=
                       reports w ++
                         [{| report_folder := folder_path input_folder;
                             total_submissions := List.length files;
                             disqualified := List.length no;
                             ranked := sorted_reverse score_key done;
                             judges_ranking := ranking_text (fst answer) |}];
                     championship := championship w |})).
Proof.
  cbv zeta. unfold process_essay_folder_with_quick_analysis.
  destruct (folder_files input_folder) as [files|]; [| now left].
  right.
  destruct (test_ollama_connection get_tags (service w)) as [c s0].
  cbn [fst snd]. destruct c; cbn [negb].
  2: { left. exists files.
       split; [reflexivity | split; [now left | reflexivity]]. }
  destruct files as [|f files].
  { left. exists [].
    split; [reflexivity | split; [now right | reflexivity]]. }
  right.
  destruct (classify_files post (f :: files) s0 [] []) as [[yes no] s1] eqn:Hc.
  destruct yes as [|y yes].
  { left. exists (f :: files), no, s1.
    split; [reflexivity | split; [reflexivity | split; [exact Hc | reflexivity]]]. }
  right. exists (f :: files), (y :: yes), no, s1.
  split; [reflexivity |]. split; [reflexivity |].
  split; [exact Hc |]. split; [discriminate |].
  pose proof (analyse_essays_length (y :: yes) s1 []) as Hlen.
  cbv beta iota zeta.
  destruct (analyse_essays post (y :: yes) s1 []) as [done s2].
  rewrite simple_comparative_ranking_eq.
  cbn [fst snd] in *.
  destruct done as [|o done]; [discriminate |]. reflexivity.
Qed.

(** X7.  A folder run that returns no essay writes no report.  A run that
    returns essays writes exactly one report, after the reports that were
    there: its ranking is a permutation of the returned list, its number of
    submissions is the number of files of the folder, and the ranked and
    the disqualified essays together do not exceed that number.  The
    returned list itself is in the order of phase 2, not of the ranking. *)
Theorem folder_run_writes_one_consistent_report
    (input_folder : folder) (w : world svc) :
  let out :=
    process_essay_folder_with_quick_analysis post get_tags input_folder w in
  championship (snd out) = championship w
  /\ ((fst out = [] /\ reports (snd out) = reports w)
      \/ exists files rep,
          folder_files input_folder = Some files
          /\ fst out <> []
          /\ reports (snd out) = reports w ++ [rep]
          /\ Permutation (fst out) (ranked rep)
          /\ report_folder rep = folder_path input_folder
          /\ total_submissions rep = List.length files
          /\ (List.length (ranked rep) + disqualified rep
              <= total_submissions rep)%nat
          /\ exists yes s1,
              fst out = fst (analyse_essays post yes s1 [])
              /\ map Essay.filename (fst out) = map Classified.filename yes).
Proof.
  cbv zeta.
  destruct (process_folder_cases input_folder w)
    as [[_ ->] | [(files & _ & _ & ->) | [(files & no & s1 & _ & _ & _ & ->)
       | (files & yes & no & s1 & Hf & _ & Hc & Hne & ->)]]];
    try (split; [reflexivity | left; split; reflexivity]).
  cbn [fst snd reports championship]. split; [reflexivity |]. right.
  eexists files, _. split; [exact Hf |].
  pose proof (analyse_essays_length yes s1 []) as Hlen. cbn [List.length] in Hlen.
  split.
  { intros E. rewrite E in Hlen. destruct yes; [contradiction | discriminate]. }
  split; [reflexivity |].
  split; [apply sorted_reverse_perm |].
  split; [reflexivity |]. split; [reflexivity |].
  split.
  { cbn [ranked disqualified total_submissions].
    rewrite <- (Permutation_length (sorted_reverse_perm _ score_key _)), Hlen.
    destruct (classify_files_growth svc post files
                (snd (test_ollama_connection get_tags (service w))) [] [])
      as (ys & ns & H1 & H2 & H3 & _).
    rewrite Hc in H1, H2. cbn [fst snd app] in H1, H2. subst ys ns.
    pose proof (sent_contents_length files). lia. }
  exists yes, s1. split; [reflexivity | apply analyse_essays_names].
Qed.
End FolderFacts.

Section RequestBudget.
Variable svc : Type.
Variable post : svc -> request -> reply * svc.
Variable get_tags : svc -> tags_reply * svc.

Lemma test_connection_log (s : svc * list request) :
  snd (snd (test_ollama_connection (recording_tags get_tags) s)) = snd s.
Proof.
  unfold test_ollama_connection, recording_tags.
  now destruct (get_tags (fst s)).
Qed.

(** X8.  A folder run sends at most two requests per file and one more:
    one classification per file it reads, one scoring per essay it kept
    and one ranking.  Nothing is sent when the folder is missing or the
    probe fails; a run that returns no essay has sent classification
    requests only; every request names the model llama2. *)
Theorem folder_run_sends_at_most_two_requests_per_file
    (input_folder : folder) (w : world (svc * list request)) :
  let out :=
    process_essay_folder_with_quick_analysis (recording_post post)
      (recording_tags get_tags) input_folder w in
  let n :=
    match folder_files input_folder with
    | Some files => List.length files
    | None => 0%nat
    end in
  exists sent,
    snd (service (snd out)) = snd (service w) ++ sent
    /\ (List.length sent <= 2 * n + 1)%nat
    /\ Forall (fun req => req_model req = T "llama2") sent
    /\ (fst out = [] ->
        (List.length sent <= n)%nat
        /\ Forall (fun req => exists head, req_prompt req = ClassifyPrompt head)
             sent)
    /\ (fst (test_ollama_connection (recording_tags get_tags) (service w))
        = false -> sent = []).
Proof.
  cbv zeta.
  assert (forall l, Forall (fun req => req_model req = T "llama2")
                      (map classify_request l)) as Hm1.
  { intros l. apply Forall_forall. intros req H.
    now apply in_map_iff in H as (c & <- & _). }
  assert (forall l, Forall (fun req => req_model req = T "llama2")
                      (map analysis_request l)) as Hm2.
  { intros l. apply Forall_forall. intros req H.
    now apply in_map_iff in H as (c & <- & _). }
  assert (forall l, Forall (fun req => exists head,
                                req_prompt req = ClassifyPrompt head)
                      (map classify_request l)) as Hc1.
  { intros l. apply Forall_forall. intros req H.
    apply in_map_iff in H as (c & <- & _). now eexists. }
  destruct (process_folder_cases (svc * list request) (recording_post post)
              (recording_tags get_tags) input_folder w)
    as [[Hf ->] | [(files & Hf & _ & ->)
       | [(files & no & s1 & Hf & Hp & Hc & ->)
       | (files & yes & no & s1 & Hf & Hp & Hc & Hne & ->)]]];
    rewrite Hf; cbn [fst snd service with_service].
  - exists []. rewrite app_nil_r.
    split; [reflexivity |]. split; [cbn [List.length]; lia |].
    split; [constructor |].
    split; [intros _; split; [cbn [List.length]; lia | constructor]
           | reflexivity].
  - exists []. rewrite test_connection_log, app_nil_r.
    split; [reflexivity |]. split; [cbn [List.length]; lia |].
    split; [constructor |].
    split; [intros _; split; [cbn [List.length]; lia | constructor]
           | reflexivity].
  - exists (map classify_request (sent_contents files)).
    pose proof (classify_files_log svc post files
                  (snd (test_ollama_connection (recording_tags get_tags)
                          (service w))) [] []) as Hlog.
    rewrite Hc, test_connection_log in Hlog. cbn [snd] in Hlog.
    pose proof (sent_contents_length files). rewrite length_map.
    split; [exact Hlog |]. split; [lia |]. split; [apply Hm1 |].
    split; [intros _; split; [lia | apply Hc1] |].
    intros E. congruence.
  - exists (map classify_request (sent_contents files)
            ++ map analysis_request yes
            ++ [ranking_request (fst (analyse_essays (recording_post post)
                                        yes s1 [])) (T "llama2")]).
    pose proof (classify_files_log svc post files
                  (snd (test_ollama_connection (recording_tags get_tags)
                          (service w))) [] []) as Hlog.
    rewrite Hc, test_connection_log in Hlog. cbn [snd] in Hlog.
    pose proof (sent_contents_length files) as Hs.
    destruct (classify_files_growth (svc * list request) (recording_post post)
                files (snd (test_ollama_connection (recording_tags get_tags)
                              (service w))) [] [])
      as (ys & ns & H1 & _ & H3 & _).
    rewrite Hc in H1. cbn [fst snd app] in H1. subst ys.
    pose proof (analyse_essays_length (svc * list request)
                  (recording_post post) yes s1 []) as Hlen.
    split.
    { rewrite recording_post_log, analyse_essays_log, Hlog.
      now rewrite <- !app_assoc. }
    split.
    { rewrite !length_app, !length_map. cbn [List.length]. lia. }
    split.
    { apply Forall_app. split; [apply Hm1 |].
      apply Forall_app. split; [apply Hm2 |].
      constructor; [reflexivity | constructor]. }
    split.
    { intros E. rewrite E in Hlen. cbn [List.length] in Hlen.
      destruct yes; [contradiction | discriminate]. }
    intros E. congruence.
Qed.
End RequestBudget.

(** ** The top three of a zone *)

Lemma map_fst_combine (A B : Type) (la : list A) (lb : list B) :
  List.length la = List.length lb -> map fst (combine la lb) = la.
Proof.
  revert lb. induction la as [|a la IH]; intros [|b lb]; simpl;
    try discriminate; [reflexivity |].
  intros [= H]. now rewrite IH.
Qed.

Lemma enumerate1_fst (A : Type) (l : list A) :
  map fst (enumerate1 l) = seq 1 (List.length l).
Proof. unfold enumerate1. apply map_fst_combine, length_seq. Qed.

Lemma enumerate1_snd (A : Type) (l : list A) :
  map snd (enumerate1 l) = l.
Proof. unfold enumerate1. apply map_snd_combine, length_seq. Qed.

Lemma strongly_sorted_app (A : Type) (R : A -> A -> Prop) (l1 l2 : list A) :
  StronglySorted R (l1 ++ l2) ->
  StronglySorted R l1
  /\ forall a b, In a l1 -> In b l2 -> R a b.
Proof.
  induction l1 as [|x l1 IH]; simpl; intros H.
  - split; [constructor | intros a b []].
  - apply StronglySorted_inv in H as [Hs Hx].
    destruct (IH Hs) as [H1 H2]. apply Forall_app in Hx as [Hx1 Hx2]. split.
    + now constructor.
    + intros a b [<- | Ha] Hb; [| now apply H2].
      now apply (proj1 (Forall_forall _ _) Hx2).
Qed.

Lemma strongly_sorted_keys (A : Type) (key : A -> Q) (l : list A) :
  StronglySorted (before key) l ->
  StronglySorted (fun a b => (b <= a)%Q) (map key l).
Proof.
  induction 1 as [|x l Hs IH Hx]; simpl; constructor; [exact IH |].
  apply Forall_map. exact Hx.
Qed.

Lemma top_entry_fields (zone_name : text) (entry : nat * Essay.t) :
  Top.zone_rank (top_entry zone_name entry) = fst entry
  /\ Top.zone (top_entry zone_name entry) = zone_name
  /\ Top.overall_score (top_entry zone_name entry) = score_key (snd entry)
  /\ Top.filename (top_entry zone_name entry) = Essay.filename (snd entry)
  /\ Top.content (top_entry zone_name entry) = Essay.content (snd entry)
  /\ Top.analysis (top_entry zone_name entry) = Essay.analysis (snd entry).
Proof. destruct entry. repeat split. Qed.

Section TopThree.
Variable svc : Type.
Variable post : svc -> request -> reply * svc.
Variable get_tags : svc -> tags_reply * svc.

Lemma process_single_zone_eq (zone_folder : folder) (zone_name : text)
    (w : world svc) :
  process_single_zone_for_multi post get_tags zone_folder zone_name w
  = (map (top_entry zone_name)
       (enumerate1
          (firstn 3
             (sorted_reverse score_key
                (fst (process_essay_folder_with_quick_analysis post get_tags
                        zone_folder w))))),
     snd (process_essay_folder_with_quick_analysis post get_tags
            zone_folder w)).
Proof.
  unfold process_single_zone_for_multi.
  destruct (process_essay_folder_with_quick_analysis post get_tags
              zone_folder w) as [done w'].
  now destruct done.
Qed.

(** X9.  The essays a zone sends to the grand comparison are the first
    three of its ranking, or all of them when there are fewer: they carry
    the ranks 1, 2, 3 in order and the name of the zone, their scores never
    increase, each is one of the essays of the folder run with its report,
    and no essay that is left out has a higher score than one that is
    taken.  The zone run leaves the world as the folder run left it. *)
Theorem zone_sends_its_three_best
    (zone_folder : folder) (zone_name : text) (w : world svc) :
  let done :=
    fst (process_essay_folder_with_quick_analysis post get_tags zone_folder w) in
  let top :=
    fst (process_single_zone_for_multi post get_tags zone_folder zone_name w) in
  List.length top = Nat.min 3 (List.length done)
  /\ map Top.zone_rank top = seq 1 (List.length top)
  /\ Forall (fun e => Top.zone e = zone_name) top
  /\ StronglySorted (fun a b => (b <= a)%Q) (map Top.overall_score top)
  /\ (forall e, In e top ->
        exists x, In x done
                  /\ Top.filename e = Essay.filename x
                  /\ Top.content e = Essay.content x
                  /\ Top.analysis e = Essay.analysis x
                  /\ Top.overall_score e = score_key x)
  /\ (forall x, In x done ->
        In x (firstn 3 (sorted_reverse score_key done))
        \/ Forall (fun e => (score_key x <= Top.overall_score e)%Q) top)
  /\ snd (process_single_zone_for_multi post get_tags zone_folder zone_name w)
     = snd (process_essay_folder_with_quick_analysis post get_tags
              zone_folder w).
Proof.
  cbv zeta. rewrite process_single_zone_eq. cbn [fst snd].
  set (done := fst (process_essay_folder_with_quick_analysis post get_tags
                      zone_folder w)).
  set (sorted := sorted_reverse score_key done).
  pose proof (sorted_reverse_perm _ score_key done) as Hperm. fold sorted in Hperm.
  pose proof (sorted_reverse_sorted _ score_key done) as Hsorted.
  fold sorted in Hsorted.
  rewrite <- (firstn_skipn 3 sorted) in Hsorted.
  apply strongly_sorted_app in Hsorted as [Hfirst Hcross].
  assert (forall e, In e (map (top_entry zone_name)
                            (enumerate1 (firstn 3 sorted))) ->
                    exists x, In x (firstn 3 sorted)
                              /\ e = top_entry zone_name
                                       (Top.zone_rank e, x)) as Hin.
  { intros e He. apply in_map_iff in He as ([rank x] & <- & Hx).
    exists x. split; [| reflexivity].
    rewrite <- (enumerate1_snd _ (firstn 3 sorted)).
    apply in_map_iff. now exists (rank, x). }
  assert (forall x, In x (firstn 3 sorted) -> In x done) as Hdone.
  { intros x Hx. apply (Permutation_in _ (Permutation_sym Hperm)).
    rewrite <- (firstn_skipn 3 sorted). apply in_or_app. now left. }
  split.
  { rewrite length_map. unfold enumerate1.
    rewrite length_combine, length_seq, Nat.min_id, length_firstn.
    now rewrite <- (Permutation_length Hperm). }
  split.
  { rewrite length_map, map_map.
    rewrite (map_ext _ fst); [| intros a; apply top_entry_fields].
    rewrite enumerate1_fst. f_equal. unfold enumerate1.
    now rewrite length_combine, length_seq, Nat.min_id. }
  split.
  { apply Forall_forall. intros e He.
    apply in_map_iff in He as (entry & <- & _). apply top_entry_fields. }
  split.
  { rewrite map_map.
    rewrite (map_ext _ (fun entry => score_key (snd entry)));
      [| intros a; apply top_entry_fields].
    rewrite <- (map_map snd score_key), enumerate1_snd.
    now apply strongly_sorted_keys. }
  split.
  { intros e He. destruct (Hin e He) as (x & Hx & ->).
    exists x. split; [now apply Hdone |]. repeat split. }
  split; [| reflexivity].
  intros x Hx. apply (Permutation_in _ Hperm) in Hx.
  rewrite <- (firstn_skipn 3 sorted) in Hx.
  apply in_app_or in Hx as [Hx | Hx]; [now left | right].
  apply Forall_forall. intros e He. destruct (Hin e He) as (y & Hy & ->).
  apply (Hcross y x Hy Hx).
Qed.
End TopThree.

(** ** The zones of a competition *)

Lemma combine_app_one (A B : Type) (la : list A) (lb : list B) (a : A) (b : B) :
  List.length la = List.length lb ->
  combine (la ++ [a]) (lb ++ [b]) = combine la lb ++ [(a, b)].
Proof.
  revert lb. induction la as [|x la IH]; intros [|y lb]; simpl;
    try discriminate; [reflexivity |].
  intros [= H]. now rewrite IH.
Qed.

Section ZoneNames.
Variable svc : Type.
Variable post : svc -> request -> reply * svc.
Variable get_tags : svc -> tags_reply * svc.

Lemma process_zones_aligned (zones : list (folder * text)) :
  forall (w : world svc) (zone_names : list text)
         (all_zone_essays : list (list Top.t)),
    List.length zone_names = List.length all_zone_essays ->
    Forall tagged (combine zone_names all_zone_essays) ->
    fst (fst (process_zones post get_tags zones w zone_names all_zone_essays))
    = zone_names ++ map snd (filter folder_exists zones)
    /\ List.length
         (fst (fst (process_zones post get_tags zones w zone_names
                      all_zone_essays)))
       = List.length
           (snd (fst (process_zones post get_tags zones w zone_names
                        all_zone_essays)))
    /\ Forall tagged
         (combine
            (fst (fst (process_zones post get_tags zones w zone_names
                         all_zone_essays)))
            (snd (fst (process_zones post get_tags zones w zone_names
                         all_zone_essays)))).
Proof.
  induction zones as [|[zone_folder zone_name] zones IH];
    intros w zone_names all_zone_essays Hlen Htag.
  - cbn. rewrite app_nil_r. auto.
  - cbn [process_zones filter].
    change (folder_exists (zone_folder, zone_name))
      with (is_some (folder_files zone_folder)).
    destruct (folder_files zone_folder) as [files|]; cbn [is_some];
      [| now apply IH].
    rewrite process_single_zone_eq. cbv beta iota.
    set (top := map (top_entry zone_name) _).
    set (w' := snd _).
    destruct (IH w' (zone_names ++ [zone_name]) (all_zone_essays ++ [top]))
      as (H1 & H2 & H3).
    + rewrite !length_app. cbn. now rewrite Hlen.
    + rewrite combine_app_one by exact Hlen.
      apply Forall_app. split; [exact Htag |].
      constructor; [| constructor]. unfold tagged. cbn [fst snd].
      apply Forall_forall. intros e He.
      apply in_map_iff in He as (entry & <- & _). apply top_entry_fields.
    + split; [| split; [exact H2 | exact H3]].
      rewrite H1. cbn [map snd]. now rewrite <- app_assoc.
Qed.

(** X10.  The loop over the zones keeps the two lists it builds in step:
    the names are those of the zones whose folder exists, in the order
    entered, there is one list of essays per name, and every essay paired
    with a name carries that name as its zone.  So each zone kept for the
    comparison is non-empty and is paired with its own name. *)
Theorem zone_names_and_essays_stay_paired
    (zones : list (folder * text)) (w : world svc) :
  let run := process_zones post get_tags zones w [] [] in
  let valid_zones := valid_zones_of (fst (fst run)) (snd (fst run)) in
  fst (fst run) = map snd (filter folder_exists zones)
  /\ List.length (fst (fst run)) = List.length (snd (fst run))
  /\ Forall tagged (combine (fst (fst run)) (snd (fst run)))
  /\ Forall tagged valid_zones
  /\ Forall (fun z => snd z <> []) valid_zones.
Proof.
  cbv zeta.
  destruct (process_zones_aligned zones w [] [] eq_refl (Forall_nil _))
    as (H1 & H2 & H3).
  split; [exact H1 |]. split; [exact H2 |]. split; [exact H3 |].
  unfold valid_zones_of. split; apply Forall_forall; intros z Hz;
    apply filter_In in Hz as [Hz Hne].
  - now apply (proj1 (Forall_forall _ _) H3).
  - destruct (snd z); [discriminate | discriminate].
Qed.
End ZoneNames.

(** ** The combined summary *)








(** ** The result of the comparison *)

Lemma error_message_starts (rest : text) :
  startswith (T "Error") (T "Error" ++ rest) = true.
Proof. apply startswith_iff. now exists rest. Qed.

Section GrandComparison.
Variable svc : Type.
Variable post : svc -> request -> reply * svc.

(** X12.  The grand comparison sends one request.  When the call raises or
    the body of a reply with status 200 cannot be read, it returns the
    message [Error in grand comparison: ] with the exception's message;
    on a status other than 200, the message [Error: HTTP ] with the status.
    On status 200 it returns the field as it finds it, without stripping:
    the completion, the empty text when the field is absent, and, when the
    field is not a string, that value, which is not a text. *)
Theorem grand_comparison_returns_message_or_field
    (all_zone_essays : list (list Top.t)) (model : text) (s : svc) :
  let answer := post s (grand_request all_zone_essays model) in
  let result := fst (compare_zones_top_essays post all_zone_essays model s) in
  snd (compare_zones_top_essays post all_zone_essays model s) = snd answer
  /\ (forall err,
        fst answer = PostRaised err \/ fst answer = Http 200 (Unreadable err) ->
        result = Str (T "Error in grand comparison: " ++ err))
  /\ (forall status b, fst answer = Http status b -> status <> 200 ->
        result = Str (T "Error: HTTP " ++ text_of_Z status))
  /\ (fst answer = Http 200 NoField -> result = Str [])
  /\ (forall v, fst answer = Http 200 (Field v) -> result = Str v)
  /\ (forall err, fst answer = Http 200 (NotText err) -> result = NotStr)
  /\ (forall t, result = Str t ->
        (exists v, fst answer = Http 200 (Field v) /\ t = v)
        \/ (fst answer = Http 200 NoField /\ t = [])
        \/ startswith (T "Error") t = true)
  /\ (result = NotStr <-> exists err, fst answer = Http 200 (NotText err)).
Proof.
  cbv zeta. unfold compare_zones_top_essays.
  destruct (post s (grand_request all_zone_essays model)) as [r s'].
  cbn [fst snd]. split; [reflexivity |].
  split; [now intros err [-> | ->] |].
  split.
  { intros status b -> Hs. unfold grand_answer.
    now rewrite (proj2 (Z.eqb_neq status 200) Hs). }
  split; [now intros -> |].
  split; [now intros v -> |].
  split; [now intros err -> |].
  split.
  - intros t. destruct r as [err | status b]; cbn [grand_answer].
    + intros [= <-]. right. right.
      apply (error_message_starts (T " in grand comparison: " ++ err)).
    + destruct (Z.eqb_spec status 200) as [-> | Hs].
      * destruct b as [err | | v | err]; intros [= <-].
        -- right. right.
           apply (error_message_starts (T " in grand comparison: " ++ err)).
        -- right. left. now split.
        -- left. now exists v.
      * intros [= <-]. right. right.
        apply (error_message_starts (T ": HTTP " ++ text_of_Z status)).
  - split.
    + destruct r as [err | status b]; cbn [grand_answer]; [discriminate |].
      destruct (Z.eqb_spec status 200) as [-> | Hs]; [| discriminate].
      destruct b as [err | | v | err]; try discriminate.
      intros _. now exists err.
    + now intros (err & ->).
Qed.
End GrandComparison.

(** ** The sections of a scoring response *)

Lemma lazy_until_app (stop : text -> bool) (x t : text) :
  (forall x1 x2, x = x1 ++ x2 -> x2 <> [] -> stop (x2 ++ t) = false) ->
  stop t = true ->
  lazy_until stop (x ++ t) = x.
Proof.
  intros Hx Ht. induction x as [|c x IH].
  - destruct t; simpl; now rewrite Ht.
  - cbn [app lazy_until].
    assert (stop (c :: x ++ t) = false) as ->
      by (apply (Hx [] (c :: x) eq_refl); discriminate).
    f_equal. apply IH. intros x1 x2 -> Hne. now apply (Hx (c :: x1) x2).
Qed.

Lemma section_at_found (label : text) (stop : text -> bool)
    (lab ws : text) (c : ascii) (x t : text) :
  map lower_char lab = map lower_char label ->
  forallb is_space ws = true ->
  is_space c = false ->
  (forall x1 x2, x = x1 ++ x2 -> x2 <> [] -> stop (x2 ++ t) = false) ->
  stop t = true ->
  section_at label stop (lab ++ ws ++ (c :: x) ++ t) = Some (c :: x).
Proof.
  intros Hl Hws Hc Hx Ht. unfold section_at.
  rewrite (literal_ci_app _ _ _ Hl).
  rewrite lstrip_app; [| exact Hws | exact Hc].
  cbn [app]. now rewrite lazy_until_app.
Qed.

Lemma parse_section_first (label : text) (stop : text -> bool)
    (fallback pre s g : text) :
  section_at label stop s = Some g ->
  (forall pre1 pre2, pre = pre1 ++ pre2 -> pre2 <> [] ->
                     ~ label_here label (pre2 ++ s)) ->
  parse_section label stop fallback (pre ++ s) = strip g.
Proof.
  intros Hg Hfirst. unfold parse_section.
  rewrite (re_search_first _ (section_at label stop) pre s g Hg);
    [reflexivity |].
  intros pre1 pre2 E Hne. unfold section_at.
  now rewrite (proj2 (literal_ci_None label _) (Hfirst pre1 pre2 E Hne)).
Qed.


(** X13.  The strengths of a report are the text between the first
    [Strengths:] label and the next [Topics:] label, or the end of the
    response, trimmed: the capture starts at the first character after the
    label that is not a space and stops before the first place after it
    where [Topics:] begins or the response ends. *)
Theorem strengths_stop_before_topics
    (pre lab ws : text) (c : ascii) (x t : text) :
  map lower_char lab = map lower_char (T "Strengths:") ->
  forallb is_space ws = true ->
  is_space c = false ->
  (forall pre1 pre2, pre = pre1 ++ pre2 -> pre2 <> [] ->
     ~ label_here (T "Strengths:") (pre2 ++ lab ++ ws ++ (c :: x) ++ t)) ->
  (t = [] \/ label_here (T "Topics:") t) ->
  (forall x1 x2, x = x1 ++ x2 -> x2 <> [] ->
     ~ label_here (T "Topics:") (x2 ++ t) /\ at_dollar (x2 ++ t) = false) ->
  Analysis.strengths (parse_analysis (pre ++ lab ++ ws ++ (c :: x) ++ t))
  = strip (c :: x).
Proof.
  intros Hl Hws Hc Hfirst Ht Hx.
  change (Analysis.strengths (parse_analysis (pre ++ lab ++ ws ++ (c :: x) ++ t)))
    with (parse_section (T "Strengths:") strengths_stop
            (T "Good Independence Day essay")
            (pre ++ lab ++ ws ++ (c :: x) ++ t)).
  apply parse_section_first; [| exact Hfirst].
  apply section_at_found; try assumption.
  - intros x1 x2 E Hne. destruct (Hx x1 x2 E Hne) as [H1 H2].
    unfold strengths_stop. rewrite H2.
    now rewrite (proj2 (literal_ci_None _ _) H1).
  - unfold strengths_stop. destruct Ht as [-> | (l & r & -> & Hlr)].
    + reflexivity.
    + now rewrite (literal_ci_app _ _ _ Hlr).
Qed.

Lemma newline_is_space (n : ascii) : N.eqb (code n) 10 = true -> is_space n = true.
Proof.
  intros H. apply N.eqb_eq in H. unfold is_space, in_range. now rewrite H.
Qed.

Lemma lazy_until_at_dollar (r : text) :
  lazy_until at_dollar r = r
  \/ exists n, is_space n = true /\ r = lazy_until at_dollar r ++ [n].
Proof.
  induction r as [|a r IH]; [now left |].
  destruct r as [|b r].
  - cbn. destruct (N.eqb (code a) 10) eqn:E.
    + right. exists a. split; [now apply newline_is_space | reflexivity].
    + now left.
  - change (lazy_until at_dollar (a :: b :: r))
      with (a :: lazy_until at_dollar (b :: r)).
    destruct IH as [-> | (n & Hn & IH)]; [now left |].
    right. exists n. split; [exact Hn |]. cbn [app]. now rewrite <- IH.
Qed.

Lemma rstrip_snoc_space (s : text) (n : ascii) :
  is_space n = true -> rstrip (s ++ [n]) = rstrip s.
Proof.
  intros Hn. unfold rstrip. rewrite rev_app_distr. cbn [rev app lstrip].
  now rewrite Hn.
Qed.

Lemma strip_of_lstrip (s : text) : strip (lstrip s) = strip s.
Proof.
  unfold strip. f_equal.
  induction s as [|c s IH]; [reflexivity |].
  cbn [lstrip]. destruct (is_space c) eqn:E; [exact IH |].
  cbn [lstrip]. now rewrite E.
Qed.

(** X14.  The topics of a report are everything after the first [Topics:]
    label up to the end of the response, trimmed, whenever something other
    than spaces follows the label. *)
Theorem topics_run_to_the_end (pre lab rest : text) :
  map lower_char lab = map lower_char (T "Topics:") ->
  lstrip rest <> [] ->
  (forall pre1 pre2, pre = pre1 ++ pre2 -> pre2 <> [] ->
     ~ label_here (T "Topics:") (pre2 ++ lab ++ rest)) ->
  Analysis.topics (parse_analysis (pre ++ lab ++ rest)) = strip rest.
Proof.
  intros Hl Hrest Hfirst.
  change (Analysis.topics (parse_analysis (pre ++ lab ++ rest)))
    with (parse_section (T "Topics:") at_dollar (T "Independence Day themes")
            (pre ++ lab ++ rest)).
  destruct (lstrip rest) as [|c r] eqn:E; [contradiction |].
  rewrite (parse_section_first (T "Topics:") at_dollar _ pre (lab ++ rest)
             (c :: lazy_until at_dollar r)); [| | exact Hfirst].
  - rewrite <- (strip_of_lstrip rest), E.
    assert (is_space c = false) as Hc.
    { destruct (lstrip_split rest) as (ws & _ & _ & Hh).
      now rewrite E in Hh. }
    unfold strip. cbn [lstrip]. rewrite Hc.
    destruct (lazy_until_at_dollar r) as [-> | (n & Hn & Hr)];
      [reflexivity |].
    rewrite Hr at 2.
    change (c :: lazy_until at_dollar r ++ [n])
      with ((c :: lazy_until at_dollar r) ++ [n]).
    now rewrite rstrip_snoc_space.
  - unfold section_at. rewrite (literal_ci_app _ _ _ Hl). now rewrite E.
Qed.


Ltac split_text E Hne :=
  repeat
    match type of E with
    | _ :: _ = ?x1 ++ _ =>
        destruct x1 as [|? x1]; cbn [app] in E;
        [subst | injection E as <- E]
    | [] = ?x1 ++ ?x2 =>
        destruct x1; cbn [app] in E; [subst; now destruct Hne | discriminate E]
    end.

(** The strengths of [sections_reply] end before its topics. *)
Lemma strengths_example :
  Analysis.strengths (parse_analysis sections_reply) = T "bold".
Proof.
  apply (strengths_stop_before_topics [] (T "Strengths:") (T " ") "b"%char
           ["o"; "l"; "d"; ascii_of_N 10]%char (T "Topics: flags and freedom")).
  - reflexivity.
  - reflexivity.
  - reflexivity.
  - intros pre1 pre2 E Hne. split_text E Hne.
  - right. exists (T "Topics:"), (T " flags and freedom"). now split.
  - intros x1 x2 E Hne. split_text E Hne;
      (split; [apply literal_ci_None; reflexivity | reflexivity]).
Defined.

(** The topics of a response run to its end. *)
Lemma topics_example :
  Analysis.topics (parse_analysis (T "Topics: flags and freedom"))
  = T "flags and freedom".
Proof.
  apply (topics_run_to_the_end [] (T "Topics:") (T " flags and freedom")).
  - reflexivity.
  - discriminate.
  - intros pre1 pre2 E Hne. split_text E Hne.
Defined.


(** ** The prompt of the judge's ranking *)



Section JudgeRanking.
Variable svc : Type.
Variable post : svc -> request -> reply * svc.

End JudgeRanking.

(** ** The range of the overall score *)

Lemma mean_of_five_in_range (a b c d e : Z) :
  in_1_10 a -> in_1_10 b -> in_1_10 c -> in_1_10 d -> in_1_10 e ->
  (1 <= mean [a; b; c; d; e] <= 10)%Q
  /\ (mean [a; b; c; d; e] == (a + b + c + d + e) # 5)%Q.
Proof.
  unfold in_1_10, mean, sum_Z. cbn [fold_right List.length Z.of_nat].
  intros Ha Hb Hc Hd He.
  unfold Qle, Qeq, Qdiv, Qmult, Qinv, inject_Z; cbn. lia.
Qed.

Lemma score_report_five (a : Analysis.t) :
  score_report_ok a -> mean_of_five_ratings a.
Proof.
  intros (Hmean & _ & Hrange). unfold dimensions in *.
  apply Forall_cons_iff in Hrange as [Ha Hrange].
  apply Forall_cons_iff in Hrange as [Hb Hrange].
  apply Forall_cons_iff in Hrange as [Hc Hrange].
  apply Forall_cons_iff in Hrange as [Hd Hrange].
  apply Forall_cons_iff in Hrange as [He _].
  destruct (mean_of_five_in_range _ _ _ _ _ Ha Hb Hc Hd He) as [_ Hk].
  unfold mean_of_five_ratings, in_1_10 in *.
  split; [now rewrite Hmean, Hk | tauto].
Qed.

(** C1.  Every report has an overall score equal to the sum of its five
    ratings (relevance, content, writing, original, impact) divided by
    five, and each rating lies between 1 and 10.  This holds of the report
    an essay gets whatever reply its scoring call receives: the report
    parsed from the completion, malformed or partial as it may be, and the
    default report stored when the call or the parsing fails.  It holds of
    every essay a folder run returns and of every essay in the ranking it
    writes.  The ratings the parsing loop averages are the five of the
    report, one per label. *)
Theorem aggregate_is_mean_of_five_dimensions :
  (forall r, mean_of_five_ratings (analysis_or_default (analysis_of_reply r)))
  /\ (forall r a, analysis_of_reply r = Some a -> mean_of_five_ratings a)
  /\ mean_of_five_ratings default_analysis
  /\ (forall (svc : Type) (post : svc -> request -> reply * svc)
             (get_tags : svc -> tags_reply * svc) input_folder w,
        let out :=
          process_essay_folder_with_quick_analysis post get_tags input_folder w in
        Forall (fun e => mean_of_five_ratings (Essay.analysis e)) (fst out)
        /\ forall rep e, In rep (reports (snd out)) -> ~ In rep (reports w) ->
                         In e (ranked rep) ->
                         mean_of_five_ratings (Essay.analysis e))
  /\ (forall output ratings,
        try_parse_ratings patterns output = Returns ratings ->
        map fst ratings
        = [T "relevance"; T "content"; T "writing"; T "original"; T "impact"]
        /\ forall a, try_parse_analysis output = Returns a ->
                     map snd ratings
                     = [Analysis.relevance a; Analysis.content a;
                        Analysis.writing a; Analysis.original a;
                        Analysis.impact a])
  /\ (let a := analysis_or_default
                 (analysis_of_reply
                    (ok "Relevance: 9 Content: 8 Writing: 8 Original: 8 Impact: 9")) in
      (Analysis.overall_score a == 42 # 5)%Q
      /\ Analysis.relevance a = 9 /\ Analysis.impact a = 9)
  /\ (let a := analysis_or_default (analysis_of_reply (ok "no ratings here")) in
      (Analysis.overall_score a == 6)%Q)
  /\ (let a := analysis_or_default
                 (analysis_of_reply (ok "Relevance: 0 Content: 99 Writing: 3")) in
      (Analysis.overall_score a == 26 # 5)%Q).
Proof.
  assert (forall r, mean_of_five_ratings
                      (analysis_or_default (analysis_of_reply r))) as Hall.
  { intros r. apply score_report_five, analysis_or_default_ok. }
  split; [exact Hall |].
  split.
  { intros r a H. specialize (Hall r). now rewrite H in Hall. }
  split; [apply score_report_five, default_analysis_ok |].
  split.
  { intros svc post get_tags input_folder w.
    assert (Forall (fun e => mean_of_five_ratings (Essay.analysis e))
              (fst (process_essay_folder_with_quick_analysis post get_tags
                      input_folder w))) as Hout.
    { destruct (process_folder_result svc post get_tags input_folder w)
        as [-> | (l & s & ->)]; [constructor |].
      apply analyse_essays_Forall; [| constructor].
      intros e r. apply Hall. }
    cbv zeta. split; [exact Hout |].
    intros rep e Hrep Hnew He.
    pose proof (process_folder_effects svc post get_tags input_folder w) as H.
    cbv zeta in H. destruct H as [_ [[_ H] | (rep' & H & Hr & _)]].
    - rewrite H in Hrep. now destruct Hnew.
    - rewrite H in Hrep. apply in_app_or in Hrep as [Hrep | [<- | []]];
        [now destruct Hnew |].
      rewrite Hr in He.
      apply (Permutation_in _ (Permutation_sym (sorted_reverse_perm _ score_key _)))
        in He.
      exact (proj1 (Forall_forall _ _) Hout e He). }
  split.
  { intros output ratings H.
    pose proof (try_parse_ratings_returns _ _ _ H) as ->.
    split; [reflexivity |].
    intros a Ha. apply try_parse_analysis_returns in Ha as ->. reflexivity. }
  repeat split; vm_compute; reflexivity.
Qed.

(** X17.  The overall score of every report lies between 1 and 10 and is a
    whole number of fifths: it is [k/5] for the sum [k] of the five
    ratings, which lies between 5 and 50.  This holds for the report parsed
    from any reply and for the default report. *)
Theorem overall_score_between_one_and_ten (r : reply) :
  let a := analysis_or_default (analysis_of_reply r) in
  (1 <= Analysis.overall_score a <= 10)%Q
  /\ exists k,
      k = sum_Z (dimensions a)
      /\ 5 <= k <= 50
      /\ (Analysis.overall_score a == k # 5)%Q.
Proof.
  cbv zeta.
  destruct (analysis_or_default_ok r) as (Hmean & _ & Hrange).
  remember (analysis_or_default (analysis_of_reply r)) as a.
  unfold dimensions in *.
  apply Forall_cons_iff in Hrange as [Ha Hrange].
  apply Forall_cons_iff in Hrange as [Hb Hrange].
  apply Forall_cons_iff in Hrange as [Hc Hrange].
  apply Forall_cons_iff in Hrange as [Hd Hrange].
  apply Forall_cons_iff in Hrange as [He _].
  destruct (mean_of_five_in_range _ _ _ _ _ Ha Hb Hc Hd He) as [Hr Hk].
  split; [now rewrite Hmean |].
  eexists. split; [reflexivity |].
  split; [unfold in_1_10, sum_Z in *; cbn [fold_right]; lia |].
  rewrite Hmean, Hk. unfold sum_Z. cbn [fold_right].
  now rewrite Z.add_0_r, !Z.add_assoc.
Qed.

(** ** The path a user enters *)

Lemma lstrip_by_app (p : ascii -> bool) (ws r : text) :
  forallb p ws = true -> head_is p r = false -> lstrip_by p (ws ++ r) = r.
Proof.
  intros Hws Hr. induction ws as [|c ws IH]; cbn [app lstrip_by].
  - destruct r as [|c r]; [reflexivity |]. cbn in *. now rewrite Hr.
  - cbn [forallb] in Hws. apply andb_true_iff in Hws as [Hc Hws].
    rewrite Hc. now apply IH.
Qed.

Lemma lstrip_is_lstrip_by (s : text) : lstrip s = lstrip_by is_space s.
Proof.
  induction s as [|c s IH]; [reflexivity |]. cbn [lstrip lstrip_by].
  now rewrite IH.
Qed.

Lemma strip_is_strip_by (s : text) : strip s = strip_by is_space s.
Proof.
  unfold strip, rstrip, strip_by. now rewrite !lstrip_is_lstrip_by.
Qed.

Lemma forallb_rev_true (p : ascii -> bool) (l : text) :
  forallb p l = true -> forallb p (rev l) = true.
Proof.
  rewrite !forallb_forall. intros H c Hc. apply H. now apply in_rev.
Qed.

Lemma forallb_weaken (f g : ascii -> bool) (l : text) :
  (forall c, f c = true -> g c = true) ->
  forallb f l = true -> forallb g l = true.
Proof.
  intros Hfg. rewrite !forallb_forall. intros H c Hc. apply Hfg. now apply H.
Qed.

Lemma head_is_weaken (f g : ascii -> bool) (l : text) :
  (forall c, f c = true -> g c = true) ->
  head_is f l = true -> head_is g l = true.
Proof. intros Hfg. destruct l; [discriminate | apply Hfg]. Qed.

Lemma head_is_app_all (f : ascii -> bool) (l1 l2 : text) :
  forallb f l1 = true -> head_is f l2 = true -> head_is f (l1 ++ l2) = true.
Proof.
  destruct l1 as [|c l1]; [auto |]. cbn. intros H _.
  now apply andb_true_iff in H as [H _].
Qed.

Lemma strip_by_core (p : ascii -> bool) (a m b : text) :
  forallb p a = true -> forallb p b = true ->
  head_is (fun c => negb (p c)) m = true ->
  head_is (fun c => negb (p c)) (rev m) = true ->
  strip_by p (a ++ m ++ b) = m.
Proof.
  intros Ha Hb Hm Hr. unfold strip_by.
  assert (forall l, head_is (fun c => negb (p c)) l = true ->
                    forall l', head_is p (l ++ l') = false) as Hhead.
  { intros [|c l] H l'; [discriminate |]. cbn in *.
    now apply negb_true_iff in H. }
  rewrite lstrip_by_app; [| exact Ha | now apply Hhead].
  rewrite rev_app_distr.
  rewrite lstrip_by_app;
    [apply rev_involutive | now apply forallb_rev_true |].
  rewrite <- (app_nil_r (rev m)). now apply Hhead.
Qed.

Lemma quote_classes (c : ascii) :
  (ascii_eqb double_quote c = true ->
   negb (is_space c) = true /\ negb (ascii_eqb single_quote c) = true)
  /\ (ascii_eqb single_quote c = true ->
      negb (is_space c) = true /\ negb (ascii_eqb double_quote c) = true)
  /\ (path_edge c = true ->
      negb (is_space c) = true /\ negb (ascii_eqb double_quote c) = true
      /\ negb (ascii_eqb single_quote c) = true).
Proof.
  split; [| split].
  - intros H. apply ascii_eqb_eq in H. subst c. now split.
  - intros H. apply ascii_eqb_eq in H. subst c. now split.
  - unfold path_edge. rewrite !negb_true_iff, !orb_false_iff. tauto.
Qed.

(** X18.  The path read from the user loses the spaces around it, then
    the double quotes around what is left, then the single quotes around
    that: a path that begins and ends with a character that is neither a
    space nor a quote comes out as it is, whatever spaces and quotes of
    that nesting surround it. *)
Theorem entered_path_drops_spaces_and_quotes
    (ws1 dq1 sq1 p sq2 dq2 ws2 : text) :
  forallb is_space ws1 = true -> forallb is_space ws2 = true ->
  forallb (ascii_eqb double_quote) dq1 = true ->
  forallb (ascii_eqb double_quote) dq2 = true ->
  forallb (ascii_eqb single_quote) sq1 = true ->
  forallb (ascii_eqb single_quote) sq2 = true ->
  head_is path_edge p = true -> head_is path_edge (rev p) = true ->
  entered_path (ws1 ++ dq1 ++ sq1 ++ p ++ sq2 ++ dq2 ++ ws2) = p.
Proof.
  intros Hw1 Hw2 Hd1 Hd2 Hs1 Hs2 Hp Hr. unfold entered_path.
  pose proof (fun c => proj1 (quote_classes c)) as Qd.
  pose proof (fun c => proj1 (proj2 (quote_classes c))) as Qs.
  pose proof (fun c => proj2 (proj2 (quote_classes c))) as Qp.
  replace (ws1 ++ dq1 ++ sq1 ++ p ++ sq2 ++ dq2 ++ ws2)
    with (ws1 ++ (dq1 ++ (sq1 ++ p ++ sq2) ++ dq2) ++ ws2)
    by now rewrite <- !app_assoc.
  rewrite strip_is_strip_by, strip_by_core; try assumption.
  - rewrite strip_by_core; try assumption.
    + rewrite strip_by_core; try assumption.
      * reflexivity.
      * apply (head_is_weaken path_edge); [intros c H; now apply Qp | exact Hp].
      * apply (head_is_weaken path_edge); [intros c H; now apply Qp | exact Hr].
    + apply head_is_app_all.
      * apply (forallb_weaken (ascii_eqb single_quote));
          [intros c H; now apply Qs | exact Hs1].
      * apply (head_is_weaken path_edge); [intros c H; now apply Qp |].
        destruct p; [discriminate | exact Hp].
    + rewrite !rev_app_distr, <- app_assoc. apply head_is_app_all.
      * apply forallb_rev_true.
        apply (forallb_weaken (ascii_eqb single_quote));
          [intros c H; now apply Qs | exact Hs2].
      * apply (head_is_weaken path_edge); [intros c H; now apply Qp |].
        destruct (rev p); [discriminate | exact Hr].
  - apply head_is_app_all.
    + apply (forallb_weaken (ascii_eqb double_quote));
        [intros c H; now apply Qd | exact Hd1].
    + rewrite <- app_assoc. apply head_is_app_all.
      * apply (forallb_weaken (ascii_eqb single_quote));
          [intros c H; now apply Qs | exact Hs1].
      * apply (head_is_weaken path_edge); [intros c H; now apply Qp |].
        destruct p; [discriminate | exact Hp].
  - rewrite !rev_app_distr, <- !app_assoc. apply head_is_app_all.
    + apply forallb_rev_true.
      apply (forallb_weaken (ascii_eqb double_quote));
        [intros c H; now apply Qd | exact Hd2].
    + apply head_is_app_all.
      * apply forallb_rev_true.
        apply (forallb_weaken (ascii_eqb single_quote));
          [intros c H; now apply Qs | exact Hs2].
      * apply (head_is_weaken path_edge); [intros c H; now apply Qp |].
        destruct (rev p); [discriminate | exact Hr].
Qed.

(** A path entered between double quotes, with spaces around. *)
Lemma entered_path_example :
  entered_path (T "  " ++ [double_quote] ++ T "C:/essays/zone a"
                ++ [double_quote] ++ T " ")
  = T "C:/essays/zone a".
Proof.
  apply (entered_path_drops_spaces_and_quotes (T "  ") [double_quote] []
           (T "C:/essays/zone a") [] [double_quote] (T " "));
    reflexivity.
Defined.
